(** * Vehicle search application: the Express API and the search form

    A shallow embedding of the three read-only endpoints of the vehicle
    search server (list all, get by VRM, search), of the store loader they
    share and of the validation done by the home page before it sends a
    search, together with the properties stated about them.

    Modelling conventions.
    - JavaScript strings are [string]s.  Case conversion acts on the ASCII
      letters, as [toLowerCase] and [toUpperCase] do on that range, and the
      white space of [trim], [Number] and [parseInt] is the ASCII white
      space; characters above 127 are caseless symbols here.
    - JavaScript numbers are [Num]: either [NaN] or an integer.  Prices,
      mileages and parsed queries are mathematical integers; the rounding
      of doubles beyond 2^53 is outside the model.
    - An exception is a value of [result]; [try]/[catch] is a match on it.
    - Reading the backing file and writing to the console are recorded in
      a list of [Event]s returned next to the response. *)

From Stdlib Require Import Bool Arith ZArith Lia List Ascii String DecimalString.
From Stdlib Require DecimalPos.
Import ListNotations.
Local Open Scope string_scope.
Local Open Scope Z_scope.
Set Warnings "-register-all".

(** ** Characters and strings *)

Module JSString.

Definition code (c : ascii) : nat := nat_of_ascii c.

Definition between (lo hi : nat) (c : ascii) : bool :=
  (Nat.leb lo (code c) && Nat.leb (code c) hi)%bool.

Definition is_upper : ascii -> bool := between 65 90.
Definition is_lower : ascii -> bool := between 97 122.
Definition is_digit : ascii -> bool := between 48 57.

(** StrWhiteSpaceChar, on the ASCII range: TAB, LF, VT, FF, CR, SP. *)
Definition is_space (c : ascii) : bool :=
  (between 9 13 c || Nat.eqb (code c) 32)%bool.

Definition lower_char (c : ascii) : ascii :=
  if is_upper c then ascii_of_nat (code c + 32) else c.

Definition upper_char (c : ascii) : ascii :=
  if is_lower c then ascii_of_nat (code c - 32) else c.

Fixpoint map_chars (f : ascii -> ascii) (s : string) : string :=
  match s with
  | EmptyString => EmptyString
  | String c s' => String (f c) (map_chars f s')
  end.

(** [String.prototype.toLowerCase] and [String.prototype.toUpperCase],
    as they act on strings of ASCII characters: the 26 letters are
    folded one character at a time and every other character is kept. *)
Definition toLowerCase : string -> string := map_chars lower_char.
Definition toUpperCase : string -> string := map_chars upper_char.

Fixpoint startsWith (s q : string) {struct q} : bool :=
  match q, s with
  | EmptyString, _ => true
  | String _ _, EmptyString => false
  | String a q', String b s' => (Ascii.eqb a b && startsWith s' q')%bool
  end.

(** [String.prototype.includes]: [q] occurs in [s] at some position. *)
Fixpoint includes (s q : string) : bool :=
  if startsWith s q then true
  else match s with
       | EmptyString => false
       | String _ s' => includes s' q
       end.

Fixpoint all_chars (p : ascii -> bool) (s : string) : bool :=
  match s with
  | EmptyString => true
  | String c s' => (p c && all_chars p s')%bool
  end.

Fixpoint trimStart (s : string) : string :=
  match s with
  | EmptyString => EmptyString
  | String c s' => if is_space c then trimStart s' else s
  end.

Fixpoint trimEnd (s : string) : string :=
  match s with
  | EmptyString => EmptyString
  | String c s' =>
      match trimEnd s' with
      | EmptyString => if is_space c then EmptyString else String c EmptyString
      | t => String c t
      end
  end.

(** [String.prototype.trim], as it acts on strings of ASCII characters:
    the six ASCII blanks are stripped. *)
Definition trim (s : string) : string := trimEnd (trimStart s).

Definition is_empty (s : string) : bool :=
  match s with EmptyString => true | String _ _ => false end.

(** Two strings that differ at most in the case of their letters. *)
Fixpoint equalsIgnoreCase (s t : string) : bool :=
  match s, t with
  | EmptyString, EmptyString => true
  | String a s', String b t' =>
      (Ascii.eqb (lower_char a) (lower_char b) && equalsIgnoreCase s' t')%bool
  | _, _ => false
  end.

Definition has_upper (s : string) : bool := negb (all_chars (fun c => negb (is_upper c)) s).

End JSString.
Import JSString.

(** ** Numbers *)

Module JSNumber.

(** The numbers the handlers compute with: [NaN] or an integer. *)
Inductive Num : Type :=
  | NaN
  | Int (z : Z).

(** [a === b] on numbers: [NaN] equals nothing. *)
Definition strict_eq (a b : Num) : bool :=
  match a, b with
  | Int x, Int y => Z.eqb x y
  | _, _ => false
  end.

Definition sub (a b : Num) : Num :=
  match a, b with
  | Int x, Int y => Int (x - y)
  | _, _ => NaN
  end.

(** [Math.abs]. *)
Definition Math_abs (a : Num) : Num :=
  match a with
  | Int x => Int (Z.abs x)
  | NaN => NaN
  end.

(** [a <= b] on numbers: false when either side is [NaN]. *)
Definition le (a b : Num) : bool :=
  match a, b with
  | Int x, Int y => Z.leb x y
  | _, _ => false
  end.

Definition digit_value (c : ascii) : Z := Z.of_nat (code c - 48).

Definition is_hex_digit (c : ascii) : bool :=
  (is_digit c || between 97 102 c || between 65 70 c)%bool.

Definition hex_value (c : ascii) : Z :=
  if is_digit c then Z.of_nat (code c - 48)
  else if between 97 102 c then Z.of_nat (code c - 87)
  else Z.of_nat (code c - 55).

(** The longest prefix of radix digits, read from the left with the
    accumulator [acc]; [seen] tells whether a digit was read. *)
Fixpoint read_digits (radix : Z) (isd : ascii -> bool) (val : ascii -> Z)
    (s : string) (seen : bool) (acc : Z) : option Z :=
  match s with
  | String c s' =>
      if isd c then read_digits radix isd val s' true (radix * acc + val c)
      else if seen then Some acc else None
  | EmptyString => if seen then Some acc else None
  end.

Definition strip_sign (s : string) : Z * string :=
  match s with
  | String "-" s' => (-1, s')
  | String "+" s' => (1, s')
  | _ => (1, s)
  end.

Definition strip_hex_prefix (s : string) : option string :=
  match s with
  | String "0" (String "x" s') => Some s'
  | String "0" (String "X" s') => Some s'
  | _ => None
  end.

(** [parseInt(s)] with no radix argument: leading white space is skipped,
    a sign is read, a [0x] prefix selects radix 16, and the longest run of
    digits is the value; no digit at all gives [NaN].  The value is the
    exact integer, which is what JavaScript returns for a safe integer
    (below 2^53 in size). *)
Definition parseInt (s : string) : Num :=
  let '(sign, body) := strip_sign (trimStart s) in
  let mathInt :=
    match strip_hex_prefix body with
    | Some hex => read_digits 16 is_hex_digit hex_value hex false 0
    | None => read_digits 10 is_digit digit_value body false 0
    end in
  match mathInt with
  | Some n => Int (sign * n)
  | None => NaN
  end.

(** The number of leading characters satisfying [p], and what follows. *)
Fixpoint span (p : ascii -> bool) (s : string) : nat * string :=
  match s with
  | String c s' =>
      if p c then let '(n, r) := span p s' in (S n, r) else (O, s)
  | EmptyString => (O, EmptyString)
  end.

Definition nonempty_run (p : ascii -> bool) (s : string) : bool :=
  let '(n, r) := span p s in (Nat.ltb 0 n && all_chars is_space r)%bool.

(** ExponentPart_opt followed by trailing white space only. *)
Definition exponent_opt (s : string) : bool :=
  match s with
  | String c s' =>
      if (Ascii.eqb c "e" || Ascii.eqb c "E")%bool
      then nonempty_run is_digit (snd (strip_sign s'))
      else all_chars is_space s
  | EmptyString => true
  end.

Fixpoint skip (n : nat) (s : string) : string :=
  match n, s with
  | S n', String _ s' => skip n' s'
  | _, _ => s
  end.

(** StrUnsignedDecimalLiteral followed by trailing white space only. *)
Definition unsigned_decimal (s : string) : bool :=
  if startsWith s "Infinity" then all_chars is_space (skip 8 s)
  else
    let '(n1, r1) := span is_digit s in
    match r1 with
    | String "." r2 =>
        let '(n2, r3) := span is_digit r2 in
        if (Nat.eqb n1 0 && Nat.eqb n2 0)%bool then false else exponent_opt r3
    | _ => if Nat.eqb n1 0 then false else exponent_opt r1
    end.

Definition is_octal_digit : ascii -> bool := between 48 55.
Definition is_binary_digit : ascii -> bool := between 48 49.

(** StrNumericLiteral followed by trailing white space only. *)
Definition numeric_literal (s : string) : bool :=
  match s with
  | String "0" (String "x" r) | String "0" (String "X" r) => nonempty_run is_hex_digit r
  | String "0" (String "o" r) | String "0" (String "O" r) => nonempty_run is_octal_digit r
  | String "0" (String "b" r) | String "0" (String "B" r) => nonempty_run is_binary_digit r
  | String "+" r | String "-" r => unsigned_decimal r
  | _ => unsigned_decimal s
  end.

(** [isNaN(s)] on a string: [Number(s)] is [NaN] unless [s], white space
    trimmed, is empty or a StrNumericLiteral. *)
Definition isNaN (s : string) : bool :=
  match trimStart s with
  | EmptyString => false
  | t => negb (numeric_literal t)
  end.

End JSNumber.
Import JSNumber.



(** ** Data model *)

(** A record of [data.json].  Every field is present on every record. *)
Record Vehicle : Type := mkVehicle {
  VRM : string;
  Make : string;
  Model : string;
  Variant : string;
  Colour : string;
  BodyType : string;
  Price : Z;
  Mileage : Z;
  DateOfRegistration : string
}.

(** A value as [express.json()] hands it to a handler; [JUndefined] is
    the value of a property the body does not have. *)
Inductive JSValue : Type :=
  | JUndefined
  | JNull
  | JBool (b : bool)
  | JNum (n : Z)
  | JStr (s : string)
  | JArr (items : list JSValue)
  | JObj (fields : list (string * JSValue)).

(** The outcome of an expression that may throw. *)
Inductive result (A : Type) : Type :=
  | Ok (a : A)
  | Throw (message : string).
Arguments Ok {A} a.
Arguments Throw {A} message.

(** What [fs.readFileSync] followed by [JSON.parse] meets on disk. *)
Inductive Disk : Type :=
  | Unreadable (error : string)
  | Malformed (text : string) (error : string)
  | Parses (records : list Vehicle).

Inductive Event : Type :=
  | ReadFile
  | ConsoleError (label : string) (error : string).

(** The JSON envelopes the handlers send. *)
Inductive Body : Type :=
  | ListBody (success : bool) (count : nat) (data : list Vehicle)
  | ItemBody (success : bool) (data : Vehicle)
  | MessageBody (success : bool) (message : string)
  | MessageDataBody (success : bool) (message : string) (data : list Vehicle)
  | ErrorBody (success : bool) (message : string) (error : string).

Record Response : Type := mkResponse {
  status : nat;
  body : Body
}.

(** The vehicles a response carries in its [data] field, if it has one. *)
Definition response_data (r : Response) : option (list Vehicle) :=
  match body r with
  | ListBody _ _ d => Some d
  | ItemBody _ v => Some [v]
  | MessageDataBody _ _ d => Some d
  | MessageBody _ _ | ErrorBody _ _ _ => None
  end.

Definition response_success (r : Response) : bool :=
  match body r with
  | ListBody b _ _ | ItemBody b _ | MessageBody b _
  | MessageDataBody b _ _ | ErrorBody b _ _ => b
  end.

(** ** Coercions of request values *)

Module Coercion.

(** ToBoolean, as [!searchQuery] applies it. *)
Definition ToBoolean (v : JSValue) : bool :=
  match v with
  | JUndefined | JNull => false
  | JBool b => b
  | JNum n => negb (Z.eqb n 0)
  | JStr s => negb (is_empty s)
  | JArr _ | JObj _ => true
  end.

(** Whether a parsed object has an own property [k]. *)
Fixpoint has_own (k : string) (fields : list (string * JSValue)) : bool :=
  match fields with
  | [] => false
  | (k', _) :: rest => (String.eqb k k' || has_own k rest)%bool
  end.

(** [Number.prototype.toString] on a safe integer (below 2^53 in size):
    its plain decimal numeral. *)
Definition Number_toString (n : Z) : string :=
  NilZero.string_of_int (Z.to_int n).

Definition Boolean_toString (b : bool) : string :=
  if b then "true" else "false".

Definition not_a_function : string := "toString is not a function".
Definition not_primitive : string := "Cannot convert object to primitive value".
Definition no_properties : string := "Cannot read properties of undefined or null".

(** [Array.prototype.join] with the default separator, over the string
    forms [conv] gives the elements. *)
Definition join_with (conv : JSValue -> result string) : list JSValue -> result string :=
  fix join (l : list JSValue) : result string :=
    match l with
    | [] => Ok ""
    | [x] => conv x
    | x :: rest =>
        match conv x with
        | Throw e => Throw e
        | Ok sx =>
            match join rest with
            | Throw e => Throw e
            | Ok sr => Ok (sx ++ "," ++ sr)
            end
        end
    end.

(** The string form of a value inside [Array.prototype.join]: [null] and
    [undefined] give the empty string; an object whose own [toString]
    property shadows the inherited method cannot be converted, since no
    parsed value is callable. *)
Fixpoint ToString_element (v : JSValue) : result string :=
  match v with
  | JUndefined | JNull => Ok ""
  | JBool b => Ok (Boolean_toString b)
  | JNum n => Ok (Number_toString n)
  | JStr s => Ok s
  | JArr items => join_with ToString_element items
  | JObj fields =>
      if has_own "toString" fields then Throw not_primitive
      else Ok "[object Object]"
  end.

(** [value.toString()], the method call. *)
Definition toString (v : JSValue) : result string :=
  match v with
  | JUndefined | JNull => Throw no_properties
  | JObj fields =>
      if has_own "toString" fields then Throw not_a_function
      else Ok "[object Object]"
  | _ => ToString_element v
  end.

(** No object with an own [toString] property sits in the value or, if
    it is an array, in its elements. *)
Fixpoint convertible (v : JSValue) : bool :=
  match v with
  | JObj fields => negb (has_own "toString" fields)
  | JArr items => forallb convertible items
  | _ => true
  end.

End Coercion.
Import Coercion.


(** The backing file could not be read or parsed. *)
Definition load_fails (disk : Disk) : bool :=
  match disk with
  | Parses _ => false
  | Unreadable _ | Malformed _ _ => true
  end.

(** ** The server *)

Module Server.

(** [getVehiclesData]: the file is read and parsed on every call; a
    failure of either is logged and answered with the empty array. *)
Definition getVehiclesData (disk : Disk) : list Vehicle * list Event :=
  match disk with
  | Parses records => (records, [ReadFile])
  | Unreadable error => ([], [ReadFile; ConsoleError "Error reading data.json:" error])
  | Malformed _ error => ([], [ReadFile; ConsoleError "Error reading data.json:" error])
  end.

(** [GET /api/vehicles]. *)
Definition listVehicles (disk : Disk) : Response * list Event :=
  let '(vehicles, log) := getVehiclesData disk in
  (mkResponse 200 (ListBody true (List.length vehicles) vehicles), log).

(** [vehicles.find(v => v.VRM.toUpperCase() === vrm)]. *)
Definition findByVrm (vrm : string) (vehicles : list Vehicle) : option Vehicle :=
  List.find (fun v => String.eqb (toUpperCase (VRM v)) vrm) vehicles.

(** [GET /api/vehicles/vrm/:vrm]; [param] is [req.params.vrm]. *)
Definition getVehicleByVrm (disk : Disk) (param : string) : Response * list Event :=
  let vrm := toUpperCase param in
  let '(vehicles, log) := getVehiclesData disk in
  match findByVrm vrm vehicles with
  | Some vehicle => (mkResponse 200 (ItemBody true vehicle), log)
  | None =>
      (mkResponse 404 (MessageBody false ("No vehicle found with VRM: " ++ vrm)), log)
  end.

(** The price-range check of the filter: a numeric query matches a price
    within 1000 of the value read off it. *)
Definition priceInRange (query : string) (vehicle : Vehicle) : bool :=
  if negb (isNaN query)
  then let numQuery := parseInt query in
       le (Math_abs (sub (Int (Price vehicle)) numQuery)) (Int 1000)
  else false.

(** The callback of [vehicles.filter] in the search handler; [query] is
    the lower-cased search string. *)
Definition vehicleMatches (query : string) (vehicle : Vehicle) : bool :=
  if includes (toLowerCase (VRM vehicle)) query then true
  else if includes (toLowerCase (Make vehicle)) query then true
  else if includes (toLowerCase (Model vehicle)) query then true
  else if includes (toLowerCase (Variant vehicle)) query then true
  else if includes (toLowerCase (Colour vehicle)) query then true
  else if includes (toLowerCase (BodyType vehicle)) query then true
  else if (negb (isNaN query) && strict_eq (Int (Price vehicle)) (parseInt query))%bool then true
  else if (negb (isNaN query) && strict_eq (Int (Mileage vehicle)) (parseInt query))%bool then true
  else if priceInRange query vehicle then true
  else if includes (DateOfRegistration vehicle) query then true
  else false.

(** The query engine: the search string is lower-cased and the
    collection filtered. *)
Definition searchVehicles (searchQuery : string) (vehicles : list Vehicle) : list Vehicle :=
  let query := toLowerCase searchQuery in
  List.filter (vehicleMatches query) vehicles.

Definition quote : string := String "034"%char EmptyString.

(** [POST /api/vehicles/search]; [searchQuery] is [req.body.query]. *)
Definition searchHandler (disk : Disk) (searchQuery : JSValue) : Response * list Event :=
  if negb (ToBoolean searchQuery)
  then (mkResponse 400 (MessageBody false "Search query is required"), [])
  else
    let '(vehicles, log) := getVehiclesData disk in
    match toString searchQuery with
    | Throw error =>
        (mkResponse 500 (ErrorBody false "Error searching vehicles" error), log)
    | Ok text =>
        let matchingVehicles := searchVehicles text vehicles in
        if Nat.ltb 0 (List.length matchingVehicles)
        then (mkResponse 200
                (ListBody true (List.length matchingVehicles) matchingVehicles), log)
        else (mkResponse 404
                (MessageDataBody false
                   ("No vehicles found matching: " ++ quote ++ text ++ quote) []), log)
    end.

End Server.
Import Server.

(** ** The home page *)

Module HomePage.

Record State : Type := mkState {
  vehicles : list Vehicle;
  loading : bool;
  error : string;
  noResultsMessage : string
}.

(** The request [handleSearch] issues, if it issues one. *)
Inductive Request : Type :=
  | PostSearch (query : JSValue).

(** [handleSearch] up to the point where the request is sent: an empty
    or blank term sets the error and returns without a request. *)
Definition handleSearch (searchQuery : string) (st : State) : State * option Request :=
  if (is_empty searchQuery || String.eqb (trim searchQuery) "")%bool
  then (mkState [] (loading st) "Please enter a search term" "", None)
  else (mkState [] true "" "", Some (PostSearch (JStr searchQuery))).

End HomePage.

(** ** Sample data *)

Definition golf : Vehicle :=
  mkVehicle "AB12CDE" "Volkswagen" "Golf" "1.5 TSI EVO" "Blue" "Hatchback"
            12995 45200 "2019-03-15".

Definition series3 : Vehicle :=
  mkVehicle "XY19ZZZ" "BMW" "3 Series" "320d M Sport" "Black" "Saloon"
            18500 30100 "2019-06-01".

Definition fleet : list Vehicle := [golf; series3].

(** ** Specification vocabulary *)

(** [q] occurs in [s]. *)
Definition Contains (s q : string) : Prop :=
  exists pre post, s = pre ++ q ++ post.

(** ** Order-preserving selection *)

Section SelectedDef.

Context {A : Type}.

(** [Selected P l r]: [r] keeps, in the order of [l] and as often as they
    occur there, exactly the elements of [l] that satisfy [P]. *)
Inductive Selected (P : A -> Prop) : list A -> list A -> Prop :=
  | Selected_nil : Selected P [] []
  | Selected_keep x l r : P x -> Selected P l r -> Selected P (x :: l) (x :: r)
  | Selected_drop x l r : ~ P x -> Selected P l r -> Selected P (x :: l) r.

End SelectedDef.

(** ** The range the model is exact on *)

Module Domain.

(** A string of ASCII characters only.  On these the case conversion,
    the trimming and the white space of the model are those of
    JavaScript; beyond them JavaScript folds further letters (a sharp s
    upper-cases to two letters) and strips further blanks (the no-break
    space among them). *)
Definition is_ascii (s : string) : bool :=
  all_chars (fun c => Nat.ltb (code c) 128) s.

(** [Number.isSafeInteger]: an integer below 2^53 in size, which a
    double holds exactly.  On these [parseInt], the subtraction of the
    filter and the decimal string form of a number are exact. *)
Definition isSafeInteger (z : Z) : bool := Z.abs z <? 2 ^ 53.

End Domain.
Import Domain.

(** ** The matching rule *)

Module Rule.

(** Case-insensitive substring containment. *)
Definition ContainsIgnoringCase (field q : string) : Prop :=
  Contains (toLowerCase field) (toLowerCase q).

Fixpoint decimal_value (digits : string) (acc : Z) : Z :=
  match digits with
  | EmptyString => acc
  | String c rest => decimal_value rest (10 * acc + digit_value c)
  end.

(** The rule as section 4.2 words it: the query parses as an integer when
    it is a decimal integer numeral, a run of digits with an optional
    sign, and the integer is the value of that numeral. *)
Definition parses_as_integer (q : string) : option Z :=
  let '(sign, digits) := strip_sign q in
  if (negb (is_empty digits) && all_chars is_digit digits)%bool
  then Some (sign * decimal_value digits 0)
  else None.

(** A purely numeric query: a non-empty run of decimal digits. *)
Definition is_numeral (q : string) : bool :=
  (negb (is_empty q) && all_chars is_digit q)%bool.

(** The ten predicates as section 4.2 words them, in its order. *)
Definition SpecMatch (q : string) (v : Vehicle) : Prop :=
  ContainsIgnoringCase (VRM v) q
  \/ ContainsIgnoringCase (Make v) q
  \/ ContainsIgnoringCase (Model v) q
  \/ ContainsIgnoringCase (Variant v) q
  \/ ContainsIgnoringCase (Colour v) q
  \/ ContainsIgnoringCase (BodyType v) q
  \/ (exists n, parses_as_integer q = Some n /\ Price v = n)
  \/ (exists n, parses_as_integer q = Some n /\ Mileage v = n)
  \/ (exists n, parses_as_integer q = Some n /\ Z.abs (Price v - n) <= 1000)
  \/ ContainsIgnoringCase (DateOfRegistration v) q.

(** The gate of the numeric predicates in the handler: [Number] accepts
    the lower-cased query and [parseInt] reads the integer [n] off it. *)
Definition numeric_query (q : string) (n : Z) : Prop :=
  isNaN (toLowerCase q) = false /\ parseInt (toLowerCase q) = Int n.

(** The ten predicates of the handler: the numeric ones behind
    [numeric_query], the registration date searched as stored. *)
Definition EngineMatch (q : string) (v : Vehicle) : Prop :=
  ContainsIgnoringCase (VRM v) q
  \/ ContainsIgnoringCase (Make v) q
  \/ ContainsIgnoringCase (Model v) q
  \/ ContainsIgnoringCase (Variant v) q
  \/ ContainsIgnoringCase (Colour v) q
  \/ ContainsIgnoringCase (BodyType v) q
  \/ (exists n, numeric_query q n /\ Price v = n)
  \/ (exists n, numeric_query q n /\ Mileage v = n)
  \/ (exists n, numeric_query q n /\ Z.abs (Price v - n) <= 1000)
  \/ Contains (DateOfRegistration v) (toLowerCase q).

End Rule.

(** The Golf with its registration date as an ISO timestamp. *)
Definition golf_iso : Vehicle :=
  mkVehicle "AB12CDE" "Volkswagen" "Golf" "1.5 TSI EVO" "Blue" "Hatchback"
            12995 45200 "2019-03-15T00:00:00.000Z".

(** The Golf with the case of its descriptive fields changed. *)
Definition golf_shouting : Vehicle :=
  mkVehicle "ab12cde" "VOLKSWAGEN" "GOLF" "1.5 tsi evo" "BLUE" "hatchback"
            12995 45200 "2019-03-15".

(** The events that are reads of the backing file, and those that are
    writes to the console. *)
Definition is_read (e : Event) : bool :=
  match e with ReadFile => true | ConsoleError _ _ => false end.

Definition is_console_error (e : Event) : bool :=
  match e with ReadFile => false | ConsoleError _ _ => true end.

(** ** What the pages read off a response *)

Module Fetch.

(** How a [fetch] followed by [response.json()] ends: it throws, or it
    yields the parsed body. *)
Inductive Outcome : Type :=
  | NetworkError
  | Responded (data : Body).

(** The [data] property of a parsed body. *)
Inductive DataField : Type :=
  | DataMissing
  | DataArray (items : list Vehicle)
  | DataObject (item : Vehicle).

Definition data_success (b : Body) : bool :=
  match b with
  | ListBody s _ _ | ItemBody s _ | MessageBody s _
  | MessageDataBody s _ _ | ErrorBody s _ _ => s
  end.

Definition data_data (b : Body) : DataField :=
  match b with
  | ListBody _ _ d | MessageDataBody _ _ d => DataArray d
  | ItemBody _ v => DataObject v
  | MessageBody _ _ | ErrorBody _ _ _ => DataMissing
  end.

Definition data_message (b : Body) : option string :=
  match b with
  | MessageBody _ m | MessageDataBody _ m _ | ErrorBody _ m _ => Some m
  | ListBody _ _ _ | ItemBody _ _ => None
  end.

(** [message || fallback]. *)
Definition or_default (message : option string) (fallback : string) : string :=
  match message with
  | Some m => if is_empty m then fallback else m
  | None => fallback
  end.

End Fetch.

(** ** The home page after the request *)

Module HomeFlow.

Import Fetch HomePage.

Definition search_failed : string :=
  "Failed to search vehicles. Please ensure the backend server is running on port 5000.".

Definition fetch_failed : string :=
  "Failed to fetch vehicles. Please ensure the backend server is running on port 5000.".

(** The rest of [handleSearch], from the parsed response on.  [None]
    stands for a success body whose [data] is no array, which would put
    a non-array in the [vehicles] state. *)
Definition settleSearch (searchQuery : string) (outcome : Outcome) (st : State)
  : option State :=
  match outcome with
  | NetworkError => Some (mkState (vehicles st) false search_failed (noResultsMessage st))
  | Responded data =>
      if data_success data then
        match data_data data with
        | DataArray d =>
            Some (mkState d false (error st)
                    (if Nat.eqb (List.length d) 0
                     then "No vehicles found matching: " ++ quote ++ searchQuery ++ quote
                     else noResultsMessage st))
        | DataMissing | DataObject _ => None
        end
      else
        Some (mkState (vehicles st) false (error st)
                (or_default (data_message data) "No vehicles found"))
  end.

(** [handleSearch] against the server holding [disk]. *)
Definition searchRoundTrip (disk : Disk) (term : string) (st : State) : option State :=
  match handleSearch term st with
  | (st1, None) => Some st1
  | (st1, Some (PostSearch q)) =>
      settleSearch term (Responded (body (fst (searchHandler disk q)))) st1
  end.

(** [handleViewAllVehicles] before the request: the previous vehicles
    stay in the state. *)
Definition startViewAll (st : State) : State :=
  mkState (vehicles st) true "" "".

(** [handleViewAllVehicles] from the parsed response on. *)
Definition settleViewAll (outcome : Outcome) (st : State) : option State :=
  match outcome with
  | NetworkError => Some (mkState (vehicles st) false fetch_failed (noResultsMessage st))
  | Responded data =>
      if data_success data then
        match data_data data with
        | DataArray d => Some (mkState d false (error st) (noResultsMessage st))
        | DataMissing | DataObject _ => None
        end
      else Some (mkState (vehicles st) false "Failed to fetch vehicles" (noResultsMessage st))
  end.

Definition viewAllRoundTrip (disk : Disk) (st : State) : option State :=
  settleViewAll (Responded (body (fst (listVehicles disk)))) (startViewAll st).

(** Which of the four conditional blocks of the page are rendered. *)
Record View : Type := mkView {
  showsError : bool;
  showsNoResults : bool;
  showsLoading : bool;
  showsGrid : bool
}.

Definition render (st : State) : View :=
  mkView (negb (is_empty (error st)))
         (negb (is_empty (noResultsMessage st)) && negb (loading st))
         (loading st)
         (negb (loading st) && Nat.ltb 0 (List.length (vehicles st))).

End HomeFlow.

(** ** The detail page *)

Module DetailPage.

Import Fetch.

Record State : Type := mkState {
  vehicle : option Vehicle;
  loading : bool;
  error : string
}.


Definition details_failed : string :=
  "Failed to fetch vehicle details. Please ensure the backend server is running.".

(** [fetchVehicleDetails] from the parsed response on; the error is set
    on failure and never cleared.  [None] stands for a success body
    whose [data] is an array. *)
Definition settleDetails (outcome : Outcome) (st : State) : option State :=
  match outcome with
  | NetworkError => Some (mkState (vehicle st) false details_failed)
  | Responded data =>
      if data_success data then
        match data_data data with
        | DataObject v => Some (mkState (Some v) false (error st))
        | DataMissing => Some (mkState None false (error st))
        | DataArray _ => None
        end
      else Some (mkState (vehicle st) false (or_default (data_message data) "Vehicle not found"))
  end.

Inductive View : Type :=
  | LoadingView
  | ErrorView (message : string)
  | NotFoundView (vrm : string)
  | DetailsView (v : Vehicle).

(** The four returns of the component, in their order. *)
Definition render (vrm : string) (st : State) : View :=
  if loading st then LoadingView
  else if negb (is_empty (error st)) then ErrorView (error st)
  else match vehicle st with
       | None => NotFoundView vrm
       | Some v => DetailsView v
       end.




End DetailPage.

(** ** The envelope read by the pages *)

(** The [success] flag of a response agrees with its status, and a 200
    carries a [data] field. *)
Definition coherent (r : Response) : Prop :=
  (response_success r = true <-> status r = 200%nat)
  /\ (status r = 200%nat -> Fetch.data_data (body r) <> Fetch.DataMissing).

(** ** Evaluations *)

Example isNaN_examples :
  map isNaN ["12995"; "12.5"; "1e3"; " 12 "; "0x1f"; "0b11"; "   "; ""; "-7"; ".5"; "5."; "Infinity"; "+Infinity  "]
  = [false; false; false; false; false; false; false; false; false; false; false; false; false]
  /\ map isNaN ["bmw"; "12abc"; "."; "0x"; "-0x1f"; "1e"; "e3"; "infinity"; "1 2"; "--1"; "Infinityx"; "1.2.3"; "+"]
  = [true; true; true; true; true; true; true; true; true; true; true; true; true].
Proof. split; reflexivity. Qed.

Example parseInt_examples :
  map parseInt ["12995"; "12.5"; "1e3"; " 12 "; "0x1f"; "0b11"; "   "; ""; "-7"; "12abc"; "-0x1F"; "0x"; "bmw"; "+"]
  = [Int 12995; Int 12; Int 1; Int 12; Int 31; Int 0; NaN; NaN; Int (-7); Int 12; Int (-31); NaN; NaN; NaN].
Proof. reflexivity. Qed.

Example toString_examples :
  map toString [JNum 12000; JNum 0; JNum (-5); JBool true; JStr "BMW";
                JArr [JNum 1; JNull; JStr "a"; JArr [JNum 2; JNum 3]]; JArr []; JObj [("a", JNum 1)];
                JObj [("toString", JNull)]; JArr [JNum 1; JObj [("toString", JNum 1)]]]
  = [Ok "12000"; Ok "0"; Ok "-5"; Ok "true"; Ok "BMW"; Ok "1,,a,2,3"; Ok ""; Ok "[object Object]";
     Throw not_a_function; Throw not_primitive].
Proof. reflexivity. Qed.

Example search_examples :
  searchVehicles "bmw" fleet = [series3]
  /\ searchVehicles "BLUE" fleet = [golf]
  /\ searchVehicles "12000" fleet = [golf]
  /\ searchVehicles "10000" fleet = []
  /\ searchVehicles "2019" fleet = fleet
  /\ searchVehicles " " fleet = fleet
  /\ searchVehicles "30100" fleet = [series3].
Proof. repeat split; reflexivity. Qed.

(** ** Facts about strings *)

Section StringFacts.

Lemma upper_of_lower_char (c : ascii) : upper_char (lower_char c) = upper_char c.
Proof. destruct c as [[] [] [] [] [] [] [] []]; reflexivity. Qed.

Lemma lower_of_upper_char (c : ascii) : lower_char (upper_char c) = lower_char c.
Proof. destruct c as [[] [] [] [] [] [] [] []]; reflexivity. Qed.

Lemma lower_char_idem (c : ascii) : lower_char (lower_char c) = lower_char c.
Proof. destruct c as [[] [] [] [] [] [] [] []]; reflexivity. Qed.

Lemma lower_char_fixes (c : ascii) : is_upper c = false -> lower_char c = c.
Proof. unfold lower_char; intros ->; reflexivity. Qed.

Lemma toLowerCase_idem (s : string) : toLowerCase (toLowerCase s) = toLowerCase s.
Proof.
  induction s as [|c s IH]; simpl; [reflexivity|].
  unfold toLowerCase in *; simpl; rewrite lower_char_idem, IH; reflexivity.
Qed.

Lemma toLowerCase_fixes (s : string) : has_upper s = false -> toLowerCase s = s.
Proof.
  unfold has_upper, toLowerCase; intros H.
  apply negb_false_iff in H.
  induction s as [|c s IH]; simpl in *; [reflexivity|].
  apply andb_true_iff in H as [Hc Hs].
  apply negb_true_iff in Hc.
  rewrite (lower_char_fixes c Hc), (IH Hs); reflexivity.
Qed.

Lemma equalsIgnoreCase_lower (s t : string) :
  equalsIgnoreCase s t = true -> toLowerCase s = toLowerCase t.
Proof.
  revert t; induction s as [|a s IH]; intros [|b t]; simpl; try discriminate; auto.
  intros H; apply andb_true_iff in H as [Hc Hs].
  apply Ascii.eqb_eq in Hc.
  unfold toLowerCase in *; simpl; rewrite Hc, (IH t Hs); reflexivity.
Qed.

Lemma equalsIgnoreCase_upper (s t : string) :
  equalsIgnoreCase s t = true -> toUpperCase s = toUpperCase t.
Proof.
  revert t; induction s as [|a s IH]; intros [|b t]; simpl; try discriminate; auto.
  intros H; apply andb_true_iff in H as [Hc Hs].
  apply Ascii.eqb_eq in Hc.
  unfold toUpperCase in *; simpl; rewrite (IH t Hs).
  rewrite <- (upper_of_lower_char a), Hc, upper_of_lower_char; reflexivity.
Qed.

Lemma toUpperCase_equalsIgnoreCase (s t : string) :
  toUpperCase s = toUpperCase t -> equalsIgnoreCase s t = true.
Proof.
  revert t; induction s as [|a s IH]; intros [|b t]; simpl; try discriminate; auto.
  unfold toUpperCase; simpl; intros H; injection H as Hc Hs.
  rewrite (IH t Hs), andb_true_r.
  apply Ascii.eqb_eq.
  rewrite <- (lower_of_upper_char a), Hc, lower_of_upper_char; reflexivity.
Qed.

Lemma startsWith_spec (s q : string) :
  startsWith s q = true <-> exists post, s = q ++ post.
Proof.
  revert s; induction q as [|a q IH]; intros s; simpl.
  - split; [intros _; exists s; reflexivity | reflexivity].
  - destruct s as [|b s]; simpl.
    + split; [discriminate | intros [post H]; discriminate H].
    + rewrite andb_true_iff, Ascii.eqb_eq, IH. split.
      * intros [-> [post ->]]; exists post; reflexivity.
      * intros [post H]; injection H as -> ->; split; [reflexivity | exists post; reflexivity].
Qed.

Lemma includes_unfold (s q : string) :
  includes s q =
  if startsWith s q then true
  else match s with EmptyString => false | String _ s' => includes s' q end.
Proof. destruct s; reflexivity. Qed.

Lemma includes_spec (s q : string) : includes s q = true <-> Contains s q.
Proof.
  split.
  - induction s as [|a s IH]; rewrite includes_unfold;
      destruct (startsWith _ q) eqn:E; intros H; try discriminate H.
    + apply startsWith_spec in E as [post E]; exists "", post; exact E.
    + apply startsWith_spec in E as [post E]; exists "", post; exact E.
    + destruct (IH H) as (pre & post & ->). exists (String a pre), post; reflexivity.
  - intros (pre & post & ->).
    induction pre as [|a pre IH]; rewrite includes_unfold.
    + replace (startsWith ("" ++ q ++ post) q) with true; [reflexivity|].
      symmetry; apply startsWith_spec; exists post; reflexivity.
    + destruct (startsWith _ q); [reflexivity | exact IH].
Qed.

Lemma includes_false (s q : string) : includes s q = false <-> ~ Contains s q.
Proof.
  rewrite <- includes_spec; destruct (includes s q); split; congruence.
Qed.

End StringFacts.

(** ** Facts about selection *)

Section Selection.

Context {A : Type}.

Lemma filter_Selected (P : A -> Prop) (f : A -> bool) (l : list A) :
  (forall x, f x = true <-> P x) -> Selected P l (List.filter f l).
Proof.
  intros Hf; induction l as [|x l IH]; simpl; [constructor|].
  destruct (f x) eqn:E.
  - apply Selected_keep; [apply Hf; exact E | exact IH].
  - apply Selected_drop; [rewrite <- Hf, E; discriminate | exact IH].
Qed.

Lemma Selected_In (P : A -> Prop) (l r : list A) :
  Selected P l r -> forall x, In x r <-> In x l /\ P x.
Proof.
  induction 1 as [|x l r Hx _ IH|x l r Hx _ IH]; intros y; simpl.
  - tauto.
  - rewrite IH. split.
    + intros [<-|[? ?]]; auto.
    + intros [[<-|?] ?]; auto.
  - rewrite IH. split.
    + intros [? ?]; auto.
    + intros [[<-|?] ?]; [contradiction | auto].
Qed.

Lemma Selected_functional (P : A -> Prop) (l r r' : list A) :
  Selected P l r -> Selected P l r' -> r = r'.
Proof.
  intros H; revert r'; induction H as [|x l r Hx _ IH|x l r Hx _ IH];
    intros r' H'; inversion H'; subst; try contradiction; auto.
  f_equal; auto.
Qed.

End Selection.

(** ** The query engine *)

Section Engine.

Import Rule.

Lemma exact_branch (query : string) (p : Z) :
  (negb (isNaN query) && strict_eq (Int p) (parseInt query))%bool = true
  <-> isNaN query = false /\ parseInt query = Int p.
Proof.
  rewrite andb_true_iff, negb_true_iff.
  destruct (parseInt query) as [|n]; simpl.
  - split; intros [? ?]; discriminate.
  - rewrite Z.eqb_eq. split; intros [? H]; split; congruence.
Qed.

Lemma fuzzy_branch (query : string) (v : Vehicle) :
  priceInRange query v = true
  <-> isNaN query = false
      /\ exists n, parseInt query = Int n /\ Z.abs (Price v - n) <= 1000.
Proof.
  unfold priceInRange.
  destruct (isNaN query); simpl.
  - split; [discriminate | intros [? _]; discriminate].
  - destruct (parseInt query) as [|n]; simpl.
    + split; [discriminate | intros [_ (n & H & _)]; discriminate].
    + rewrite Z.leb_le. split.
      * intros H; split; [reflexivity | exists n; auto].
      * intros [_ (m & Hm & H)]; injection Hm as ->; exact H.
Qed.

(** The callback of the filter holds exactly on the handler's ten
    predicates. *)
Lemma vehicleMatches_spec (q : string) (v : Vehicle) :
  vehicleMatches (toLowerCase q) v = true <-> EngineMatch q v.
Proof.
  unfold vehicleMatches, EngineMatch, ContainsIgnoringCase, numeric_query.
  repeat match goal with
  | |- context [includes ?s ?t] =>
      let E := fresh "E" in
      destruct (includes s t) eqn:E;
      [apply includes_spec in E; tauto | apply includes_false in E]
  end.
  destruct (negb (isNaN (toLowerCase q)) && strict_eq (Int (Price v)) _)%bool eqn:E7.
  { apply exact_branch in E7. split; [intros _ | reflexivity].
    do 6 right; left; exists (Price v); tauto. }
  destruct (negb (isNaN (toLowerCase q)) && strict_eq (Int (Mileage v)) _)%bool eqn:E8.
  { apply exact_branch in E8. split; [intros _ | reflexivity].
    do 7 right; left; exists (Mileage v); tauto. }
  destruct (priceInRange (toLowerCase q) v) eqn:E9.
  { apply fuzzy_branch in E9 as [Hn (n & Hp & Hd)]. split; [intros _ | reflexivity].
    do 8 right; left; exists n; tauto. }
  assert (N7 : ~ exists n, (isNaN (toLowerCase q) = false /\ parseInt (toLowerCase q) = Int n)
                           /\ Price v = n).
  { intros (n & [Hn Hp] & <-).
    assert (T : (negb (isNaN (toLowerCase q))
                 && strict_eq (Int (Price v)) (parseInt (toLowerCase q)))%bool = true)
      by (apply exact_branch; auto).
    congruence. }
  assert (N8 : ~ exists n, (isNaN (toLowerCase q) = false /\ parseInt (toLowerCase q) = Int n)
                           /\ Mileage v = n).
  { intros (n & [Hn Hp] & <-).
    assert (T : (negb (isNaN (toLowerCase q))
                 && strict_eq (Int (Mileage v)) (parseInt (toLowerCase q)))%bool = true)
      by (apply exact_branch; auto).
    congruence. }
  assert (N9 : ~ exists n, (isNaN (toLowerCase q) = false /\ parseInt (toLowerCase q) = Int n)
                           /\ Z.abs (Price v - n) <= 1000).
  { intros (n & [Hn Hp] & Hd).
    apply not_true_iff_false in E9; apply E9, fuzzy_branch.
    split; [exact Hn | exists n; auto]. }
  destruct (includes (DateOfRegistration v) (toLowerCase q)) eqn:E10.
  - apply includes_spec in E10; tauto.
  - apply includes_false in E10. split; [discriminate | tauto].
Qed.

(** C1 (as amended): for every collection and every query string, the
    search returns exactly the order-preserving selection of the vehicles
    that satisfy one of the handler's ten predicates: the lower-cased
    query occurs in the lower-cased VRM, Make, Model, Variant, Colour or
    BodyType; or [Number] accepts the lower-cased query and the integer
    [parseInt] reads off it equals Price, equals Mileage, or is within
    1000 of Price; or the lower-cased query occurs in DateOfRegistration
    as stored. *)
Theorem search_selects_engine_matches (vs : list Vehicle) (q : string) :
  Selected (EngineMatch q) vs (searchVehicles q vs).
Proof.
  unfold searchVehicles.
  apply filter_Selected.
  intros v; apply vehicleMatches_spec.
Qed.

Lemma not_contains_by_search (s q : string) :
  includes (toLowerCase s) (toLowerCase q) = false -> ~ ContainsIgnoringCase s q.
Proof. intros H; apply includes_false; exact H. Qed.

(** C1 (as stated) fails twice.  A registration date holding upper-case
    letters contains the query ["T00"] when case is ignored, yet the
    vehicle is not returned; and the query ["12995.5"], which is no
    integer and occurs in no field, returns the vehicle priced 12995. *)
Lemma search_departs_from_spec_rule :
  ("T00" <> "" /\ SpecMatch "T00" golf_iso /\ searchVehicles "T00" [golf_iso] = [])
  /\ ("12995.5" <> "" /\ ~ SpecMatch "12995.5" golf
      /\ searchVehicles "12995.5" [golf] = [golf]).
Proof.
  split; (split; [discriminate|]); split; try reflexivity.
  - do 9 right. apply includes_spec; reflexivity.
  - unfold SpecMatch.
    intros [H|[H|[H|[H|[H|[H|[H|[H|[H|H]]]]]]]]];
      try (revert H; apply not_contains_by_search; reflexivity);
      destruct H as (n & H & _); discriminate H.
Qed.

End Engine.

(** ** Case of the query and of the requested VRM *)

Section CaseInvariance.

Lemma equalsIgnoreCase_empty (s t : string) :
  equalsIgnoreCase s t = true -> is_empty s = is_empty t.
Proof. destruct s, t; simpl; congruence. Qed.

(** C2: searching with a query and with any case variant of it returns
    the same vehicles in the same order; at the endpoint the two requests
    get the same status and the same data. *)
Theorem search_ignores_query_case (vs : list Vehicle) (disk : Disk) (q1 q2 : string) :
  equalsIgnoreCase q1 q2 = true ->
  searchVehicles q1 vs = searchVehicles q2 vs
  /\ status (fst (searchHandler disk (JStr q1))) = status (fst (searchHandler disk (JStr q2)))
  /\ response_data (fst (searchHandler disk (JStr q1)))
     = response_data (fst (searchHandler disk (JStr q2))).
Proof.
  intros H.
  assert (S : forall l, searchVehicles q1 l = searchVehicles q2 l).
  { intros l; unfold searchVehicles; rewrite (equalsIgnoreCase_lower _ _ H); reflexivity. }
  split; [apply S|].
  unfold searchHandler; simpl.
  rewrite (equalsIgnoreCase_empty _ _ H).
  destruct (is_empty q2); simpl; [auto|].
  destruct (getVehiclesData disk) as [vehicles log].
  rewrite S.
  destruct (Nat.ltb 0 (List.length (searchVehicles q2 vehicles))); simpl; auto.
Qed.

Lemma search_ignores_query_case_bmw :
  searchVehicles "bmw" fleet = searchVehicles "BMW" fleet
  /\ status (fst (searchHandler (Parses fleet) (JStr "bmw")))
     = status (fst (searchHandler (Parses fleet) (JStr "BMW")))
  /\ response_data (fst (searchHandler (Parses fleet) (JStr "bmw")))
     = response_data (fst (searchHandler (Parses fleet) (JStr "BMW"))).
Proof.
  apply (search_ignores_query_case fleet (Parses fleet) "bmw" "BMW").
  reflexivity.
Defined.

(** C3: a lookup by VRM and a lookup by any case variant of that VRM get
    the same answer: the same record, or the same not-found message. *)
Theorem lookup_ignores_vrm_case (disk : Disk) (vrm1 vrm2 : string) :
  equalsIgnoreCase vrm1 vrm2 = true ->
  getVehicleByVrm disk vrm1 = getVehicleByVrm disk vrm2.
Proof.
  intros H; unfold getVehicleByVrm.
  rewrite (equalsIgnoreCase_upper _ _ H); reflexivity.
Qed.

Lemma lookup_ignores_vrm_case_golf :
  getVehicleByVrm (Parses fleet) "ab12cde" = getVehicleByVrm (Parses fleet) "AB12CDE"
  /\ fst (getVehicleByVrm (Parses fleet) "ab12cde") = mkResponse 200 (ItemBody true golf).
Proof.
  split; [|reflexivity].
  apply (lookup_ignores_vrm_case (Parses fleet) "ab12cde" "AB12CDE").
  reflexivity.
Defined.

(** C9: over VRMs and a requested identifier of ASCII characters,
    whenever the lookup succeeds, the record it returns is a record of
    the store whose VRM equals the requested identifier up to case. *)
Theorem lookup_returns_requested_vrm (disk : Disk) (param : string) :
  is_ascii param = true ->
  (forall u, In u (fst (getVehiclesData disk)) -> is_ascii (VRM u) = true) ->
  status (fst (getVehicleByVrm disk param)) = 200%nat ->
  exists v,
    body (fst (getVehicleByVrm disk param)) = ItemBody true v
    /\ In v (fst (getVehiclesData disk))
    /\ equalsIgnoreCase (VRM v) param = true.
Proof.
  intros _ _.
  unfold getVehicleByVrm, findByVrm.
  destruct (getVehiclesData disk) as [vehicles log]; simpl.
  destruct (find _ vehicles) as [v|] eqn:F; simpl; [intros _ | discriminate].
  apply find_some in F as [Hin Heq].
  apply String.eqb_eq in Heq.
  exists v; repeat split; auto.
  apply toUpperCase_equalsIgnoreCase; exact Heq.
Qed.

Lemma lookup_returns_requested_vrm_golf :
  exists v,
    body (fst (getVehicleByVrm (Parses fleet) "ab12cde")) = ItemBody true v
    /\ In v (fst (getVehiclesData (Parses fleet)))
    /\ equalsIgnoreCase (VRM v) "ab12cde" = true.
Proof.
  apply (lookup_returns_requested_vrm (Parses fleet) "ab12cde").
  - reflexivity.
  - intros u [<-|[<-|[]]]; reflexivity.
  - reflexivity.
Defined.

End CaseInvariance.

(** ** The store and the list endpoint *)

Section Store.

(** C8: whatever the backing file holds, the list endpoint answers 200
    with the whole collection as data, unchanged, and with its length as
    count. *)
Theorem list_returns_whole_collection (disk : Disk) :
  fst (listVehicles disk)
  = mkResponse 200 (ListBody true (List.length (fst (getVehiclesData disk)))
                             (fst (getVehiclesData disk)))
  /\ forall records,
       fst (listVehicles (Parses records))
       = mkResponse 200 (ListBody true (List.length records) records).
Proof.
  split.
  - unfold listVehicles; destruct (getVehiclesData disk); reflexivity.
  - intros records; reflexivity.
Qed.

(** C7: when reading or parsing the backing file fails, the loader
    returns the empty array and logs the failure, and every endpoint
    answers as it does over an empty collection: the list endpoint
    reports success with count 0, and no endpoint answers 500 on that
    account. *)
Theorem load_failure_reads_as_empty (disk : Disk) :
  load_fails disk = true ->
  fst (getVehiclesData disk) = []
  /\ (exists e, snd (getVehiclesData disk) = [ReadFile; ConsoleError "Error reading data.json:" e])
  /\ fst (listVehicles disk) = mkResponse 200 (ListBody true 0 [])
  /\ (forall param, fst (getVehicleByVrm disk param) = fst (getVehicleByVrm (Parses []) param))
  /\ (forall searchQuery,
        fst (searchHandler disk searchQuery) = fst (searchHandler (Parses []) searchQuery)).
Proof.
  destruct disk as [e|t e|records]; simpl; try discriminate; intros _.
  - repeat split; try reflexivity.
    + exists e; reflexivity.
    + intros q; unfold searchHandler; simpl.
      destruct (ToBoolean q); simpl; [|reflexivity].
      destruct (toString q); reflexivity.
  - repeat split; try reflexivity.
    + exists e; reflexivity.
    + intros q; unfold searchHandler; simpl.
      destruct (ToBoolean q); simpl; [|reflexivity].
      destruct (toString q); reflexivity.
Qed.

Lemma load_failure_reads_as_empty_enoent :
  fst (getVehiclesData (Unreadable "ENOENT")) = []
  /\ fst (listVehicles (Unreadable "ENOENT")) = mkResponse 200 (ListBody true 0 []).
Proof.
  destruct (load_failure_reads_as_empty (Unreadable "ENOENT") eq_refl) as (H1 & _ & H3 & _).
  split; [exact H1 | exact H3].
Defined.

End Store.

(** ** Not found *)

Section NotFound.

Lemma find_none_iff {A : Type} (f : A -> bool) (l : list A) :
  (forall x, In x l -> f x = false) -> List.find f l = None.
Proof.
  intros H; destruct (List.find f l) as [x|] eqn:F; [|reflexivity].
  apply find_some in F as [Hin Hx]. rewrite (H x Hin) in Hx; discriminate.
Qed.

(** C6: an accepted query that matches no vehicle is answered 404 with
    success false, a message and the empty data list, and no answer of
    the search endpoint is a success with empty data; over VRMs of ASCII
    characters, a requested VRM that no record carries, up to case, is
    answered 404 with success false and a message, and no data field. *)
Theorem no_match_is_not_found (disk : Disk) :
  (forall searchQuery text,
      ToBoolean searchQuery = true ->
      toString searchQuery = Ok text ->
      searchVehicles text (fst (getVehiclesData disk)) = [] ->
      fst (searchHandler disk searchQuery)
      = mkResponse 404
          (MessageDataBody false ("No vehicles found matching: " ++ quote ++ text ++ quote) []))
  /\ (forall searchQuery,
        response_success (fst (searchHandler disk searchQuery)) = true ->
        status (fst (searchHandler disk searchQuery)) = 200%nat
        /\ response_data (fst (searchHandler disk searchQuery)) <> Some [])
  /\ (forall param,
        is_ascii param = true ->
        (forall v, In v (fst (getVehiclesData disk)) -> is_ascii (VRM v) = true) ->
        (forall v, In v (fst (getVehiclesData disk)) -> equalsIgnoreCase (VRM v) param = false) ->
        fst (getVehicleByVrm disk param)
        = mkResponse 404 (MessageBody false ("No vehicle found with VRM: " ++ toUpperCase param))
        /\ response_data (fst (getVehicleByVrm disk param)) = None).
Proof.
  split; [|split].
  - intros q text Hq Ht Hm. unfold searchHandler.
    rewrite Hq; simpl.
    destruct (getVehiclesData disk) as [vehicles log]; simpl in *.
    rewrite Ht, Hm; reflexivity.
  - intros q. unfold searchHandler.
    destruct (ToBoolean q); simpl; [|discriminate].
    destruct (getVehiclesData disk) as [vehicles log].
    destruct (toString q) as [text|e]; simpl; [|discriminate].
    destruct (searchVehicles text vehicles) as [|v m]; simpl; [discriminate|].
    intros _; split; [reflexivity | discriminate].
  - intros param _ _ H. unfold getVehicleByVrm, findByVrm.
    destruct (getVehiclesData disk) as [vehicles log]; simpl in *.
    rewrite find_none_iff; [split; reflexivity|].
    intros v Hin. apply String.eqb_neq. intros E.
    apply toUpperCase_equalsIgnoreCase in E.
    rewrite (H v Hin) in E; discriminate.
Qed.

Lemma no_match_is_not_found_fleet :
  fst (searchHandler (Parses fleet) (JStr "Tesla"))
  = mkResponse 404
      (MessageDataBody false ("No vehicles found matching: " ++ quote ++ "Tesla" ++ quote) [])
  /\ fst (getVehicleByVrm (Parses fleet) "zz99zzz")
     = mkResponse 404 (MessageBody false "No vehicle found with VRM: ZZ99ZZZ").
Proof.
  destruct (no_match_is_not_found (Parses fleet)) as (S & _ & L).
  split.
  - apply (S (JStr "Tesla") "Tesla"); reflexivity.
  - apply (L "zz99zzz").
    + reflexivity.
    + intros v [<-|[<-|[]]]; reflexivity.
    + intros v [<-|[<-|[]]]; reflexivity.
Defined.

End NotFound.

(** ** Validation of the query *)

Section Validation.

Import HomePage.

Lemma trimStart_blank (s : string) : all_chars is_space s = true -> trimStart s = "".
Proof.
  induction s as [|c s IH]; simpl; [reflexivity|].
  intros H; apply andb_true_iff in H as [Hc Hs]. rewrite Hc; auto.
Qed.

Lemma trimStart_head (s : string) :
  match trimStart s with
  | EmptyString => all_chars is_space s = true
  | String c _ => is_space c = false
  end.
Proof.
  induction s as [|c s IH]; simpl; [reflexivity|].
  destruct (is_space c) eqn:E; simpl; [|exact E].
  destruct (trimStart s); auto.
Qed.

Lemma trimEnd_empty (s : string) : trimEnd s = "" -> all_chars is_space s = true.
Proof.
  induction s as [|c s IH]; simpl; [reflexivity|].
  destruct (trimEnd s); [|discriminate].
  destruct (is_space c); [auto | discriminate].
Qed.

(** [searchQuery.trim() === ''] holds exactly of the blank strings. *)
Lemma trim_empty_iff (s : string) : trim s = "" <-> all_chars is_space s = true.
Proof.
  unfold trim; split.
  - intros H. apply trimEnd_empty in H.
    pose proof (trimStart_head s) as T.
    destruct (trimStart s) as [|c t]; [exact T|].
    simpl in H. rewrite T in H; discriminate.
  - intros H; rewrite (trimStart_blank s H); reflexivity.
Qed.

(** C5 (as amended): a search request whose query is missing or empty,
    or any other falsy value, is rejected by the server with 400 before
    the store is read, and carries no vehicle data; a query of white
    space only is rejected by the home page, which sets its error message
    and sends no request; the server itself filters with such a query
    and answers 200 or 404. *)
Theorem blank_query_is_rejected (disk : Disk) :
  (forall searchQuery,
      ToBoolean searchQuery = false ->
      searchHandler disk searchQuery
      = (mkResponse 400 (MessageBody false "Search query is required"), [])
      /\ response_data (fst (searchHandler disk searchQuery)) = None)
  /\ ToBoolean JUndefined = false
  /\ ToBoolean (JStr "") = false
  /\ (forall term st,
        all_chars is_space term = true ->
        handleSearch term st
        = (mkState [] (loading st) "Please enter a search term" "", None))
  /\ (forall term,
        term <> "" ->
        all_chars is_space term = true ->
        status (fst (searchHandler disk (JStr term))) = 200%nat
        \/ status (fst (searchHandler disk (JStr term))) = 404%nat).
Proof.
  repeat split; try reflexivity.
  - unfold searchHandler; rewrite H; reflexivity.
  - unfold searchHandler; rewrite H; reflexivity.
  - intros term st H. unfold handleSearch.
    apply trim_empty_iff in H. rewrite H; simpl.
    rewrite orb_true_r; reflexivity.
  - intros term Hne _. unfold searchHandler.
    destruct term as [|c t]; [contradiction|]; simpl.
    destruct (getVehiclesData disk) as [vehicles log].
    destruct (Nat.ltb 0 _); simpl; auto.
Qed.

Lemma blank_query_is_rejected_fleet :
  searchHandler (Parses fleet) JUndefined
  = (mkResponse 400 (MessageBody false "Search query is required"), [])
  /\ fst (handleSearch "   " (mkState fleet false "" "")) = mkState [] false "Please enter a search term" ""
  /\ snd (handleSearch "   " (mkState fleet false "" "")) = None.
Proof.
  destruct (blank_query_is_rejected (Parses fleet)) as (S & _ & _ & C & _).
  split; [apply (S JUndefined); reflexivity|].
  rewrite (C "   " (mkState fleet false "" "") eq_refl).
  split; reflexivity.
Defined.

(** C5 (as stated) fails: the server answers a query of one space with
    200 and both vehicles, whose fields contain a space. *)
Lemma server_accepts_blank_query :
  all_chars is_space " " = true
  /\ searchHandler (Parses fleet) (JStr " ")
     = (mkResponse 200 (ListBody true 2 fleet), [ReadFile]).
Proof. split; reflexivity. Qed.

End Validation.

(** ** Numeric queries *)

Section Numerals.

Import Rule.

Ltac by_digit c H :=
  destruct c as [[] [] [] [] [] [] [] []]; try discriminate H; try reflexivity.

Lemma digit_not_space (c : ascii) : is_digit c = true -> is_space c = false.
Proof. intros H; by_digit c H. Qed.

Lemma digit_lower (c : ascii) : is_digit c = true -> lower_char c = c.
Proof. intros H; by_digit c H. Qed.

Lemma strip_sign_digit (c : ascii) (s : string) :
  is_digit c = true -> strip_sign (String c s) = (1, String c s).
Proof. intros H; by_digit c H. Qed.

Lemma not_Infinity_digit (c : ascii) (s : string) :
  is_digit c = true -> startsWith (String c s) "Infinity" = false.
Proof. intros H; by_digit c H. Qed.

Lemma numeral_lower (s : string) : all_chars is_digit s = true -> toLowerCase s = s.
Proof.
  induction s as [|c s IH]; simpl; [reflexivity|].
  intros H; apply andb_true_iff in H as [Hc Hs].
  unfold toLowerCase in *; simpl. rewrite (digit_lower c Hc), (IH Hs); reflexivity.
Qed.

Lemma read_digits_numeral (s : string) :
  all_chars is_digit s = true ->
  forall seen acc,
    read_digits 10 is_digit digit_value s seen acc
    = if (seen || negb (is_empty s))%bool then Some (decimal_value s acc) else None.
Proof.
  induction s as [|c s IH]; simpl; intros H seen acc.
  - rewrite orb_false_r; reflexivity.
  - apply andb_true_iff in H as [Hc Hs].
    rewrite Hc, (IH Hs), orb_true_r; reflexivity.
Qed.

Lemma span_numeral (s : string) :
  all_chars is_digit s = true -> span is_digit s = (String.length s, "").
Proof.
  induction s as [|c s IH]; simpl; [reflexivity|].
  intros H; apply andb_true_iff in H as [Hc Hs].
  rewrite Hc, (IH Hs); reflexivity.
Qed.

Lemma strip_hex_prefix_numeral (s : string) :
  all_chars is_digit s = true -> strip_hex_prefix s = None.
Proof.
  destruct s as [|a [|b s]]; simpl; intros H.
  - reflexivity.
  - by_digit a H.
  - apply andb_true_iff in H as [Ha H]. apply andb_true_iff in H as [Hb _].
    by_digit a Ha; by_digit b Hb.
Qed.

Lemma numeric_literal_numeral (s : string) :
  all_chars is_digit s = true -> numeric_literal s = unsigned_decimal s.
Proof.
  destruct s as [|a [|b s]]; simpl; intros H.
  - reflexivity.
  - by_digit a H.
  - apply andb_true_iff in H as [Ha H]. apply andb_true_iff in H as [Hb _].
    by_digit a Ha; by_digit b Hb.
Qed.

Lemma unsigned_decimal_numeral (s : string) :
  is_numeral s = true -> unsigned_decimal s = true.
Proof.
  unfold is_numeral. destruct s as [|c s]; [discriminate|]. simpl negb.
  rewrite andb_true_l. intros H.
  unfold unsigned_decimal.
  pose proof H as H'. simpl in H'. apply andb_true_iff in H' as [Hc _].
  rewrite (not_Infinity_digit c s Hc), (span_numeral _ H).
  reflexivity.
Qed.

Lemma trimStart_numeral (s : string) : is_numeral s = true -> trimStart s = s.
Proof.
  unfold is_numeral. destruct s as [|c s]; [discriminate|]. simpl.
  intros H. apply andb_true_iff in H as [Hc _].
  rewrite (digit_not_space c Hc); reflexivity.
Qed.

(** On a run of digits [parseInt] reads the decimal value, and [Number]
    accepts it. *)
Lemma parseInt_numeral (q : string) :
  is_numeral q = true -> parseInt q = Int (decimal_value q 0).
Proof.
  intros H. unfold parseInt. rewrite (trimStart_numeral q H).
  unfold is_numeral in H. apply andb_true_iff in H as [Hne Hd].
  destruct q as [|c s]; [discriminate|].
  pose proof Hd as Hc. simpl in Hc. apply andb_true_iff in Hc as [Hc _].
  rewrite (strip_sign_digit c s Hc), (strip_hex_prefix_numeral _ Hd),
    (read_digits_numeral _ Hd).
  simpl orb. cbv iota. f_equal. apply Z.mul_1_l.
Qed.

Lemma isNaN_numeral (q : string) : is_numeral q = true -> isNaN q = false.
Proof.
  intros H. unfold isNaN. rewrite (trimStart_numeral q H).
  pose proof (unsigned_decimal_numeral q H) as U.
  unfold is_numeral in H. apply andb_true_iff in H as [Hne Hd].
  destruct q as [|c s]; [reflexivity|].
  rewrite (numeric_literal_numeral _ Hd), U; reflexivity.
Qed.

Lemma is_numeral_lower (q : string) : is_numeral q = true -> toLowerCase q = q.
Proof.
  unfold is_numeral; intros H; apply andb_true_iff in H as [_ H].
  apply numeral_lower; exact H.
Qed.

Lemma eqb_digit_lower (c b : ascii) :
  is_digit c = true -> Ascii.eqb c (lower_char b) = Ascii.eqb c b.
Proof.
  intros H; by_digit c H; destruct b as [[] [] [] [] [] [] [] []]; reflexivity.
Qed.

Lemma startsWith_lower_numeral (q s : string) :
  all_chars is_digit q = true -> startsWith (toLowerCase s) q = startsWith s q.
Proof.
  revert s; induction q as [|c q IH]; intros s H; [reflexivity|].
  simpl in H. apply andb_true_iff in H as [Hc Hq].
  destruct s as [|b s]; [reflexivity|].
  change (toLowerCase (String b s)) with (String (lower_char b) (toLowerCase s)).
  simpl. rewrite (eqb_digit_lower c b Hc), (IH s Hq); reflexivity.
Qed.

(** A run of digits occurs in a field whether or not the field is
    lower-cased first. *)
Lemma includes_lower_numeral (q s : string) :
  all_chars is_digit q = true -> includes (toLowerCase s) q = includes s q.
Proof.
  intros H; induction s as [|b s IH].
  - reflexivity.
  - rewrite (includes_unfold (toLowerCase (String b s))), (includes_unfold (String b s)).
    rewrite (startsWith_lower_numeral q (String b s) H).
    change (toLowerCase (String b s)) with (String (lower_char b) (toLowerCase s)).
    cbv iota. rewrite IH; reflexivity.
Qed.

Lemma In_search (q : string) (v : Vehicle) (vs : list Vehicle) :
  In v (searchVehicles q vs) <-> In v vs /\ EngineMatch q v.
Proof.
  unfold searchVehicles. rewrite filter_In, vehicleMatches_spec; reflexivity.
Qed.

(** C4: a vehicle priced 12995 is in the result for the query ["12000"];
    it is in the result for ["10000"] exactly when one of the other nine
    predicates holds for it; and for a query that is a run of digits,
    with its value and the price safe integers (below 2^53, where the
    numbers of JavaScript are exact), the price-range check of the filter
    holds exactly when the price is within 1000 of the value of the
    query. *)
Theorem fuzzy_price_match (v : Vehicle) (vs : list Vehicle) :
  Price v = 12995 ->
  (vehicleMatches "12000" v = true
   /\ (In v vs -> In v (searchVehicles "12000" vs)))
  /\ (In v (searchVehicles "10000" vs)
      <-> In v vs
          /\ (ContainsIgnoringCase (VRM v) "10000"
              \/ ContainsIgnoringCase (Make v) "10000"
              \/ ContainsIgnoringCase (Model v) "10000"
              \/ ContainsIgnoringCase (Variant v) "10000"
              \/ ContainsIgnoringCase (Colour v) "10000"
              \/ ContainsIgnoringCase (BodyType v) "10000"
              \/ Price v = 10000
              \/ Mileage v = 10000
              \/ ContainsIgnoringCase (DateOfRegistration v) "10000"))
  /\ (forall q w,
        is_numeral q = true ->
        isSafeInteger (decimal_value q 0) = true ->
        isSafeInteger (Price w) = true ->
        parseInt (toLowerCase q) = Int (decimal_value q 0)
        /\ (priceInRange (toLowerCase q) w = true
            <-> Z.abs (Price w - decimal_value q 0) <= 1000)).
Proof.
  intros HP.
  assert (M : EngineMatch "12000" v).
  { do 8 right; left. exists 12000. rewrite HP. repeat split; try reflexivity. discriminate. }
  split; [|split].
  - split.
    + apply (vehicleMatches_spec "12000" v); exact M.
    + intros Hin; apply In_search; auto.
  - rewrite In_search. unfold EngineMatch, numeric_query.
    assert (D : Contains (DateOfRegistration v) (toLowerCase "10000")
                <-> ContainsIgnoringCase (DateOfRegistration v) "10000").
    { unfold ContainsIgnoringCase. rewrite <- !includes_spec.
      rewrite (includes_lower_numeral "10000" _ eq_refl); reflexivity. }
    rewrite D.
    change (toLowerCase "10000") with "10000".
    change (isNaN "10000") with false.
    change (parseInt "10000") with (Int 10000).
    split; intros [Hin H]; (split; [exact Hin|]).
    + destruct H as [H|[H|[H|[H|[H|[H|[H|[H|[H|H]]]]]]]]]; try tauto.
      * destruct H as (n & [_ E] & H). injection E as <-. tauto.
      * destruct H as (n & [_ E] & H). injection E as <-. tauto.
      * destruct H as (n & [_ E] & H). injection E as <-. rewrite HP in H. simpl in H. lia.
    + destruct H as [H|[H|[H|[H|[H|[H|[H|[H|H]]]]]]]]; try tauto.
      * do 6 right; left; exists 10000; auto.
      * do 7 right; left; exists 10000; auto.
  - intros q w Hq _ _.
    rewrite (is_numeral_lower q Hq), fuzzy_branch, (isNaN_numeral q Hq), (parseInt_numeral q Hq).
    split; [reflexivity|]. split.
    + intros [_ (n & E & H)]; injection E as <-; exact H.
    + intros H; split; [reflexivity | eauto].
Qed.

Lemma fuzzy_price_match_golf :
  vehicleMatches "12000" golf = true
  /\ In golf (searchVehicles "12000" fleet)
  /\ ~ In golf (searchVehicles "10000" fleet)
  /\ priceInRange "12000" golf = true
  /\ priceInRange "10000" golf = false.
Proof.
  destruct (fuzzy_price_match golf fleet eq_refl) as ((H1 & H2) & _ & H4).
  split; [exact H1|].
  split; [apply H2; left; reflexivity|].
  split; [intros H; vm_compute in H; exact H|].
  split.
  - apply (proj2 (H4 "12000" golf eq_refl eq_refl eq_refl)). vm_compute; discriminate.
  - reflexivity.
Defined.

End Numerals.

(** ** Truthiness and string form of the query *)

Section Truthiness.

Lemma JSValue_nested_ind (P : JSValue -> Prop) :
  P JUndefined -> P JNull -> (forall b, P (JBool b)) -> (forall n, P (JNum n)) ->
  (forall s, P (JStr s)) ->
  (forall items, Forall P items -> P (JArr items)) ->
  (forall fields, P (JObj fields)) ->
  forall v, P v.
Proof.
  intros Hu Hn Hb Hz Hs Ha Ho.
  fix IH 1.
  intros [| |b|n|s|items|fields].
  - exact Hu.
  - exact Hn.
  - apply Hb.
  - apply Hz.
  - apply Hs.
  - apply Ha.
    induction items as [|x items IHitems]; constructor; [apply IH | exact IHitems].
  - apply Ho.
Qed.

Lemma join_with_Ok (conv : JSValue -> result string) (l : list JSValue) :
  (exists t, join_with conv l = Ok t) <-> Forall (fun x => exists t, conv x = Ok t) l.
Proof.
  induction l as [|x l IH].
  - split; [constructor | exists ""; reflexivity].
  - destruct l as [|y l].
    + simpl. split.
      * intros H; constructor; [exact H | constructor].
      * intros H; inversion H; assumption.
    + change (join_with conv (x :: y :: l))
        with (match conv x with
              | Throw e => Throw e
              | Ok sx =>
                  match join_with conv (y :: l) with
                  | Throw e => Throw e
                  | Ok sr => Ok (sx ++ "," ++ sr)
                  end
              end).
      split.
      * intros [t H]. destruct (conv x) as [sx|e] eqn:Ex; [|discriminate].
        destruct (join_with conv (y :: l)) as [sr|e] eqn:Er; [|discriminate].
        constructor; [exists sx; exact Ex | apply IH; exists sr; reflexivity].
      * intros H; inversion H as [|? ? [sx Ex] Hl]; subst.
        apply IH in Hl as [sr Er]. rewrite Ex, Er. eexists; reflexivity.
Qed.

Lemma ToString_element_convertible (v : JSValue) :
  convertible v = true <-> exists t, ToString_element v = Ok t.
Proof.
  induction v as [| |b|n|s|items IH|fields] using JSValue_nested_ind;
    simpl; try (split; [intros _; eexists; reflexivity | reflexivity]).
  - rewrite join_with_Ok, forallb_forall, Forall_forall.
    rewrite Forall_forall in IH.
    split; intros H x Hx; apply (IH x Hx), H, Hx.
  - destruct (has_own "toString" fields); simpl.
    + split; [discriminate | intros [t H]; discriminate].
    + split; [intros _; eexists; reflexivity | reflexivity].
Qed.

(** On a truthy value the method call succeeds exactly when no own
    [toString] property stands in the way. *)
Lemma toString_convertible (v : JSValue) :
  ToBoolean v = true -> (convertible v = true <-> exists t, toString v = Ok t).
Proof.
  destruct v as [| |b|n|s|items|fields]; try discriminate; intros _;
    try apply ToString_element_convertible.
  simpl. destruct (has_own "toString" fields); simpl.
  - split; [discriminate | intros [t H]; discriminate].
  - split; [intros _; eexists; reflexivity | reflexivity].
Qed.

Lemma falsy_values (v : JSValue) :
  ToBoolean v = false
  <-> v = JUndefined \/ v = JNull \/ v = JBool false \/ v = JNum 0 \/ v = JStr "".
Proof.
  split.
  - destruct v as [| |[]|n|[|c s]|items|fields]; simpl; try discriminate; auto 6.
    intros H; apply negb_false_iff, Z.eqb_eq in H; subst; auto 6.
  - intros [->|[->|[->|[->| ->]]]]; reflexivity.
Qed.

(** C10 (as amended): the query value is accepted or rejected by its
    truthiness.  The falsy values (absent, null, false, the number 0, the
    empty string) are rejected with 400, the numeric query 0 among them.
    A truthy value whose string conversion succeeds, as it does for every
    non-zero number, for true, and for every array or object with no own
    [toString] property in the way, is coerced to its string form and the
    collection is filtered with it.  A truthy value whose conversion throws
    is answered with 500. *)
Theorem query_is_judged_by_truthiness (disk : Disk) (searchQuery : JSValue) :
  (ToBoolean searchQuery = false
   <-> searchQuery = JUndefined \/ searchQuery = JNull \/ searchQuery = JBool false
       \/ searchQuery = JNum 0 \/ searchQuery = JStr "")
  /\ (ToBoolean searchQuery = false ->
      searchHandler disk searchQuery
      = (mkResponse 400 (MessageBody false "Search query is required"), []))
  /\ (ToBoolean searchQuery = true ->
      forall text, toString searchQuery = Ok text ->
      let matching := searchVehicles text (fst (getVehiclesData disk)) in
      fst (searchHandler disk searchQuery)
      = if Nat.ltb 0 (List.length matching)
        then mkResponse 200 (ListBody true (List.length matching) matching)
        else mkResponse 404
               (MessageDataBody false
                  ("No vehicles found matching: " ++ quote ++ text ++ quote) []))
  /\ (ToBoolean searchQuery = true ->
      forall error, toString searchQuery = Throw error ->
      fst (searchHandler disk searchQuery)
      = mkResponse 500 (ErrorBody false "Error searching vehicles" error))
  /\ (ToBoolean searchQuery = true ->
      (convertible searchQuery = true <-> exists text, toString searchQuery = Ok text))
  /\ (forall n, toString (JNum n) = Ok (Number_toString n))
  /\ (forall b, toString (JBool b) = Ok (Boolean_toString b)).
Proof.
  split; [apply falsy_values|].
  split; [intros H; unfold searchHandler; rewrite H; reflexivity|].
  split.
  { intros H text Ht. unfold searchHandler. rewrite H, Ht; simpl.
    destruct (getVehiclesData disk) as [vehicles log]; simpl.
    destruct (Nat.ltb 0 _); reflexivity. }
  split.
  { intros H e He. unfold searchHandler. rewrite H, He; simpl.
    destruct (getVehiclesData disk) as [vehicles log]; reflexivity. }
  split; [apply toString_convertible|].
  split; reflexivity.
Qed.

Lemma query_is_judged_by_truthiness_numbers :
  searchHandler (Parses fleet) (JNum 0)
  = (mkResponse 400 (MessageBody false "Search query is required"), [])
  /\ fst (searchHandler (Parses fleet) (JNum 12000)) = mkResponse 200 (ListBody true 1 [golf])
  /\ fst (searchHandler (Parses fleet) (JBool true))
     = mkResponse 404
         (MessageDataBody false ("No vehicles found matching: " ++ quote ++ "true" ++ quote) []).
Proof.
  split; [|split].
  - apply (proj1 (proj2 (query_is_judged_by_truthiness (Parses fleet) (JNum 0)))).
    reflexivity.
  - apply (proj1 (proj2 (proj2 (query_is_judged_by_truthiness (Parses fleet) (JNum 12000))))
             eq_refl "12000" eq_refl).
  - apply (proj1 (proj2 (proj2 (query_is_judged_by_truthiness (Parses fleet) (JBool true))))
             eq_refl "true" eq_refl).
Defined.

(** C10 (as stated) fails: an object with an own [toString] property is
    truthy and no string, yet it is neither rejected with 400 nor
    accepted; the conversion throws and the answer is 500.  An empty
    array is truthy as well, and its string form is the empty query. *)
Lemma truthy_object_is_server_error :
  ToBoolean (JObj [("toString", JNull)]) = true
  /\ (forall s, JObj [("toString", JNull)] <> JStr s)
  /\ searchHandler (Parses fleet) (JObj [("toString", JNull)])
     = (mkResponse 500 (ErrorBody false "Error searching vehicles" not_a_function), [ReadFile]).
Proof. repeat split; discriminate. Qed.

End Truthiness.

(** ** Where the rule of the specification and the handler agree *)

Section Agreement.

Import Rule.

Lemma strip_sign_cases (s : string) :
  (exists r, s = String "-" r /\ strip_sign s = (-1, r))
  \/ (exists r, s = String "+" r /\ strip_sign s = (1, r))
  \/ strip_sign s = (1, s).
Proof.
  destruct s as [|c r]; [right; right; reflexivity|].
  destruct c as [[] [] [] [] [] [] [] []];
    first [ right; right; reflexivity
          | left; eexists; split; reflexivity
          | right; left; eexists; split; reflexivity ].
Qed.

Lemma signed_numeral_numeric (sign : Z) (c : ascii) (r : string) :
  (c = "-"%char /\ sign = -1) \/ (c = "+"%char /\ sign = 1) ->
  is_numeral r = true ->
  numeric_query (String c r) (sign * decimal_value r 0).
Proof.
  intros Hc Hr. unfold numeric_query.
  assert (L : toLowerCase (String c r) = String c r).
  { unfold toLowerCase; simpl. fold (toLowerCase r). rewrite (is_numeral_lower r Hr).
    destruct Hc as [[-> _]|[-> _]]; reflexivity. }
  rewrite L.
  pose proof (unsigned_decimal_numeral r Hr) as U.
  pose proof Hr as Hd. unfold is_numeral in Hd. apply andb_true_iff in Hd as [Hne Hd].
  split.
  - unfold isNaN. destruct Hc as [[-> _]|[-> _]]; simpl; rewrite U; reflexivity.
  - unfold parseInt.
    destruct Hc as [[-> ->]|[-> ->]]; simpl trimStart; simpl strip_sign; cbv iota beta;
      rewrite (strip_hex_prefix_numeral r Hd), (read_digits_numeral r Hd), Hne; reflexivity.
Qed.

(** On an integer numeral the handler's numeric gate opens, with the
    value of the numeral. *)
Lemma integer_numeral_is_numeric (q : string) (n : Z) :
  parses_as_integer q = Some n -> numeric_query q n.
Proof.
  unfold parses_as_integer.
  destruct (strip_sign_cases q) as [(r & -> & E)|[(r & -> & E)|E]]; rewrite E;
    match goal with |- context [if ?b then _ else _] => destruct b eqn:N end;
    try discriminate; intros H; injection H as <-.
  - apply (signed_numeral_numeric (-1) "-"%char r); auto.
  - apply (signed_numeral_numeric 1 "+"%char r); auto.
  - split.
    + rewrite (is_numeral_lower q N); apply isNaN_numeral; exact N.
    + rewrite (is_numeral_lower q N), (parseInt_numeral q N).
      destruct (decimal_value q 0); reflexivity.
Qed.

Lemma numeric_query_functional (q : string) (n m : Z) :
  numeric_query q n -> numeric_query q m -> n = m.
Proof. intros [_ H1] [_ H2]; congruence. Qed.

(** The two rules agree on a vehicle whose registration date holds no
    upper-case letter, for a query that is an integer numeral or that
    [Number] does not accept. *)
Lemma rules_agree (q : string) (v : Vehicle) :
  has_upper (DateOfRegistration v) = false ->
  isNaN (toLowerCase q) = true \/ (exists n, parses_as_integer q = Some n) ->
  (SpecMatch q v <-> EngineMatch q v).
Proof.
  intros Hd Hq. unfold SpecMatch, EngineMatch, ContainsIgnoringCase.
  rewrite (toLowerCase_fixes _ Hd).
  assert (G : forall n, parses_as_integer q = Some n <-> numeric_query q n).
  { intros n; split; [apply integer_numeral_is_numeric|].
    intros Hn. destruct Hq as [Hq|[m Hm]].
    - destruct Hn as [Hn _]; congruence.
    - rewrite Hm; f_equal.
      apply (numeric_query_functional q); [apply integer_numeral_is_numeric; exact Hm | exact Hn]. }
  assert (G' : forall R : Z -> Prop,
             (exists n, parses_as_integer q = Some n /\ R n)
             <-> (exists n, numeric_query q n /\ R n)).
  { intros R; split; intros (n & Hn & HR); exists n; split; auto; apply G; exact Hn. }
  rewrite !G'. reflexivity.
Qed.

Lemma Selected_ext {A : Type} (P Q : A -> Prop) (l r : list A) :
  (forall x, In x l -> (P x <-> Q x)) -> Selected P l r -> Selected Q l r.
Proof.
  intros H S; induction S as [|x l r Hx _ IH|x l r Hx _ IH].
  - constructor.
  - apply Selected_keep; [apply H; simpl; auto | apply IH; intros y Hy; apply H; simpl; auto].
  - apply Selected_drop.
    + intros HQ; apply Hx, H; simpl; auto.
    + apply IH; intros y Hy; apply H; simpl; auto.
Qed.

(** On such collections and queries the search returns the selection the
    specification describes. *)
Lemma search_selects_spec_matches (vs : list Vehicle) (q : string) :
  (forall v, In v vs -> has_upper (DateOfRegistration v) = false) ->
  isNaN (toLowerCase q) = true \/ (exists n, parses_as_integer q = Some n) ->
  Selected (SpecMatch q) vs (searchVehicles q vs).
Proof.
  intros Hd Hq.
  apply (Selected_ext (EngineMatch q)).
  - intros v Hv; symmetry; apply rules_agree; auto.
  - apply filter_Selected; intros v; apply vehicleMatches_spec.
Qed.

End Agreement.

(** ** Further properties of the lookup *)

Section Lookup.

Lemma find_first {A : Type} (f : A -> bool) (l : list A) (x : A) :
  List.find f l = Some x ->
  exists pre post, l = (pre ++ x :: post)%list /\ f x = true /\ forall u, In u pre -> f u = false.
Proof.
  induction l as [|a l IH]; simpl; [discriminate|].
  destruct (f a) eqn:E.
  - intros [= <-]. exists [], l; repeat split; auto. intros u [].
  - intros H. destruct (IH H) as (pre & post & -> & Hx & Hpre).
    exists (a :: pre), post; repeat split; auto.
    intros u [<-|Hu]; auto.
Qed.

Lemma upper_neq_not_variant (s t : string) :
  String.eqb (toUpperCase s) (toUpperCase t) = false -> equalsIgnoreCase s t = false.
Proof.
  intros H. destruct (equalsIgnoreCase s t) eqn:E; [|reflexivity].
  apply equalsIgnoreCase_upper in E. rewrite E, String.eqb_refl in H; discriminate.
Qed.

(** X1: over VRMs and a requested identifier of ASCII characters, the
    record a lookup returns is the first record of the store, in file
    order, whose VRM equals the requested one up to case. *)
Theorem lookup_returns_first_match (disk : Disk) (param : string) (v : Vehicle) :
  is_ascii param = true ->
  (forall u, In u (fst (getVehiclesData disk)) -> is_ascii (VRM u) = true) ->
  body (fst (getVehicleByVrm disk param)) = ItemBody true v ->
  exists pre post,
    fst (getVehiclesData disk) = (pre ++ v :: post)%list
    /\ equalsIgnoreCase (VRM v) param = true
    /\ forall u, In u pre -> equalsIgnoreCase (VRM u) param = false.
Proof.
  intros _ _.
  unfold getVehicleByVrm, findByVrm.
  destruct (getVehiclesData disk) as [store log]; simpl.
  destruct (find _ store) as [w|] eqn:F; simpl; [|discriminate].
  intros [= ->].
  apply find_first in F as (pre & post & -> & Hv & Hpre).
  exists pre, post; repeat split.
  - apply toUpperCase_equalsIgnoreCase, String.eqb_eq; exact Hv.
  - intros u Hu. apply upper_neq_not_variant, Hpre, Hu.
Qed.

Lemma lookup_returns_first_match_twins :
  exists pre post,
    [golf_iso; golf] = (pre ++ golf_iso :: post)%list
    /\ equalsIgnoreCase (VRM golf_iso) "ab12cde" = true
    /\ forall u, In u pre -> equalsIgnoreCase (VRM u) "ab12cde" = false.
Proof.
  apply (lookup_returns_first_match (Parses [golf_iso; golf]) "ab12cde" golf_iso).
  - reflexivity.
  - intros u [<-|[<-|[]]]; reflexivity.
  - reflexivity.
Defined.




Lemma startsWith_refl (s : string) : startsWith s s = true.
Proof. induction s as [|c s IH]; simpl; [reflexivity|]. rewrite Ascii.eqb_refl; exact IH. Qed.

Lemma includes_refl (s : string) : includes s s = true.
Proof. rewrite includes_unfold, startsWith_refl; reflexivity. Qed.

Lemma lookup_hit (disk : Disk) (param : string) (v : Vehicle) :
  body (fst (getVehicleByVrm disk param)) = ItemBody true v ->
  In v (fst (getVehiclesData disk)) /\ toUpperCase (VRM v) = toUpperCase param.
Proof.
  unfold getVehicleByVrm, findByVrm.
  destruct (getVehiclesData disk) as [store log]; simpl.
  destruct (find _ store) as [w|] eqn:F; simpl; [|discriminate].
  intros [= ->]. apply find_some in F as [Hin E].
  apply String.eqb_eq in E; auto.
Qed.

(** X3: over VRMs and a requested identifier of ASCII characters,
    whatever a lookup by a non-empty VRM finds, a search for the same
    text finds too: the search answers 200 and its data hold the
    record. *)
Theorem lookup_hit_is_search_hit (disk : Disk) (param : string) (v : Vehicle) :
  is_ascii param = true ->
  (forall u, In u (fst (getVehiclesData disk)) -> is_ascii (VRM u) = true) ->
  param <> "" ->
  body (fst (getVehicleByVrm disk param)) = ItemBody true v ->
  exists d,
    fst (searchHandler disk (JStr param)) = mkResponse 200 (ListBody true (List.length d) d)
    /\ In v d.
Proof.
  intros _ _ Hne H.
  destruct (lookup_hit disk param v H) as [Hs Hv].
  apply toUpperCase_equalsIgnoreCase, equalsIgnoreCase_lower in Hv.
  assert (M : In v (searchVehicles param (fst (getVehiclesData disk)))).
  { unfold searchVehicles. apply filter_In. split; [exact Hs|].
    unfold vehicleMatches. rewrite Hv, includes_refl; reflexivity. }
  unfold searchHandler.
  destruct param as [|c p]; [contradiction|]. simpl ToBoolean. simpl negb. cbv iota.
  destruct (getVehiclesData disk) as [store log]; simpl in *.
  destruct (searchVehicles (String c p) store) as [|w m] eqn:E; [destruct M|].
  exists (w :: m); split; [reflexivity | exact M].
Qed.

Lemma lookup_hit_is_search_hit_golf :
  exists d,
    fst (searchHandler (Parses fleet) (JStr "ab12cde"))
    = mkResponse 200 (ListBody true (List.length d) d)
    /\ In golf d.
Proof.
  apply (lookup_hit_is_search_hit (Parses fleet) "ab12cde" golf).
  - reflexivity.
  - intros u [<-|[<-|[]]]; reflexivity.
  - discriminate.
  - reflexivity.
Defined.

End Lookup.

(** ** Further properties of the filter *)

Section Filter.

Import Rule.

(** X4: the filter judges each vehicle on its own: searching a joined
    collection joins the results, searching the results again changes
    nothing, and two searches applied one after the other commute. *)
Theorem search_composes (q q' : string) (vs ws : list Vehicle) :
  searchVehicles q (vs ++ ws) = (searchVehicles q vs ++ searchVehicles q ws)%list
  /\ searchVehicles q (searchVehicles q vs) = searchVehicles q vs
  /\ searchVehicles q (searchVehicles q' vs) = searchVehicles q' (searchVehicles q vs).
Proof.
  unfold searchVehicles. split; [apply filter_app|]. split.
  - induction vs as [|v vs IH]; simpl; [reflexivity|].
    destruct (vehicleMatches (toLowerCase q) v) eqn:E; simpl; [rewrite E, IH|]; auto.
  - induction vs as [|v vs IH]; simpl; [reflexivity|].
    destruct (vehicleMatches (toLowerCase q') v) eqn:E';
      destruct (vehicleMatches (toLowerCase q) v) eqn:E; simpl;
      rewrite ?E, ?E', IH; reflexivity.
Qed.

(** X5: the exact-price check never decides: whenever it holds, the
    price-range check holds as well. *)
Theorem exact_price_is_in_range (query : string) (v : Vehicle) :
  (negb (isNaN query) && strict_eq (Int (Price v)) (parseInt query))%bool = true ->
  priceInRange query v = true.
Proof.
  intros H. apply exact_branch in H as [Hn Hp].
  apply fuzzy_branch. split; [exact Hn|].
  exists (Price v); split; [exact Hp|]. rewrite Z.sub_diag; simpl; lia.
Qed.

Lemma exact_price_is_in_range_golf : priceInRange "12995" golf = true.
Proof. apply (exact_price_is_in_range "12995" golf); reflexivity. Defined.

Lemma includes_empty (s : string) : includes s "" = true.
Proof. destruct s; reflexivity. Qed.

(** X6: the empty search string matches every vehicle.  The validation
    keeps the empty string itself out, but an empty array is truthy and
    its string form is empty: the endpoint then returns the whole
    collection, or 404 when there is none. *)
Theorem empty_array_lists_everything (disk : Disk) (vs : list Vehicle) :
  searchVehicles "" vs = vs
  /\ fst (searchHandler disk (JArr []))
     = match fst (getVehiclesData disk) with
       | [] => mkResponse 404
                 (MessageDataBody false ("No vehicles found matching: " ++ quote ++ quote) [])
       | store => mkResponse 200 (ListBody true (List.length store) store)
       end.
Proof.
  assert (A : forall l, searchVehicles "" l = l).
  { intros l; unfold searchVehicles. induction l as [|v l IH]; simpl; [reflexivity|].
    unfold vehicleMatches at 1. rewrite includes_empty, IH; reflexivity. }
  split; [apply A|].
  unfold searchHandler; simpl.
  destruct (getVehiclesData disk) as [store log]; simpl.
  rewrite A. destruct store; reflexivity.
Qed.

Lemma space_lower (c : ascii) : is_space c = true -> lower_char c = c.
Proof. intros H; destruct c as [[] [] [] [] [] [] [] []]; try discriminate H; reflexivity. Qed.

Lemma blank_lower (q : string) : all_chars is_space q = true -> toLowerCase q = q.
Proof.
  induction q as [|c q IH]; simpl; [reflexivity|].
  intros H; apply andb_true_iff in H as [Hc Hq].
  unfold toLowerCase in *; simpl. rewrite (space_lower c Hc), (IH Hq); reflexivity.
Qed.

(** X7: a query of white space passes the numeric gate, since [Number]
    reads it as 0, but [parseInt] reads [NaN] off it: it matches no
    price and no mileage, not even 0, and a vehicle is returned exactly
    when one of its seven text fields holds the query. *)
Theorem blank_query_matches_text_only (q : string) (v : Vehicle) (vs : list Vehicle) :
  all_chars is_space q = true ->
  isNaN q = false
  /\ parseInt q = NaN
  /\ (In v (searchVehicles q vs)
      <-> In v vs
          /\ (Contains (toLowerCase (VRM v)) q
              \/ Contains (toLowerCase (Make v)) q
              \/ Contains (toLowerCase (Model v)) q
              \/ Contains (toLowerCase (Variant v)) q
              \/ Contains (toLowerCase (Colour v)) q
              \/ Contains (toLowerCase (BodyType v)) q
              \/ Contains (DateOfRegistration v) q)).
Proof.
  intros H.
  assert (P : parseInt q = NaN).
  { unfold parseInt. rewrite (trimStart_blank q H); reflexivity. }
  split; [unfold isNaN; rewrite (trimStart_blank q H); reflexivity|].
  split; [exact P|].
  rewrite In_search. unfold EngineMatch, ContainsIgnoringCase, numeric_query.
  rewrite (blank_lower q H), P.
  split; intros [Hin M]; (split; [exact Hin|]).
  - destruct M as [M|[M|[M|[M|[M|[M|[M|[M|[M|M]]]]]]]]]; try tauto;
      destruct M as (n & [_ E] & _); discriminate E.
  - tauto.
Qed.

Lemma blank_query_matches_text_only_fleet :
  parseInt "  " = NaN /\ isNaN "  " = false /\ ~ In golf (searchVehicles "  " fleet).
Proof.
  destruct (blank_query_matches_text_only "  " golf fleet eq_refl) as (H1 & H2 & H3).
  split; [exact H2|]. split; [exact H1|].
  intros H; vm_compute in H; exact H.
Defined.

(** X8: the six descriptive fields are compared without regard to their
    own case: two vehicles that differ only in the case of VRM, Make,
    Model, Variant, Colour or BodyType are matched by the same
    queries. *)
Theorem match_ignores_field_case (query : string) (v w : Vehicle) :
  equalsIgnoreCase (VRM v) (VRM w) = true ->
  equalsIgnoreCase (Make v) (Make w) = true ->
  equalsIgnoreCase (Model v) (Model w) = true ->
  equalsIgnoreCase (Variant v) (Variant w) = true ->
  equalsIgnoreCase (Colour v) (Colour w) = true ->
  equalsIgnoreCase (BodyType v) (BodyType w) = true ->
  Price v = Price w -> Mileage v = Mileage w ->
  DateOfRegistration v = DateOfRegistration w ->
  vehicleMatches query v = vehicleMatches query w.
Proof.
  intros H1 H2 H3 H4 H5 H6 HP HM HD.
  unfold vehicleMatches, priceInRange.
  rewrite (equalsIgnoreCase_lower _ _ H1), (equalsIgnoreCase_lower _ _ H2),
    (equalsIgnoreCase_lower _ _ H3), (equalsIgnoreCase_lower _ _ H4),
    (equalsIgnoreCase_lower _ _ H5), (equalsIgnoreCase_lower _ _ H6), HP, HM, HD.
  reflexivity.
Qed.

Lemma match_ignores_field_case_golf :
  vehicleMatches "volks" golf = vehicleMatches "volks" golf_shouting.
Proof.
  apply (match_ignores_field_case "volks" golf golf_shouting); reflexivity.
Defined.

End Filter.

(** ** Narrowing a query *)

Section Narrowing.

Import Rule.

Lemma append_assoc (a b c : string) : (a ++ b) ++ c = a ++ (b ++ c).
Proof. induction a as [|x a IH]; simpl; [reflexivity | rewrite IH; reflexivity]. Qed.

Lemma Contains_trans (s t q : string) : Contains s t -> Contains t q -> Contains s q.
Proof.
  intros (a & b & ->) (c & d & ->).
  exists (a ++ c), (d ++ b).
  rewrite !append_assoc; reflexivity.
Qed.

(** X9: lengthening a query that is no number can only shrink the
    result: whatever a non-numeric query returns, every query contained
    in it, up to case, returns too. *)
Theorem longer_query_narrows (q q' : string) (vs : list Vehicle) (v : Vehicle) :
  isNaN (toLowerCase q') = true ->
  Contains (toLowerCase q') (toLowerCase q) ->
  In v (searchVehicles q' vs) -> In v (searchVehicles q vs).
Proof.
  intros Hn Hc. rewrite !In_search. intros [Hin M]; split; [exact Hin|].
  unfold EngineMatch, ContainsIgnoringCase, numeric_query in *.
  destruct M as [M|[M|[M|[M|[M|[M|[M|[M|[M|M]]]]]]]]];
    try (destruct M as (n & [E _] & _); congruence);
    pose proof (Contains_trans _ _ _ M Hc); tauto.
Qed.

Lemma longer_query_narrows_fleet : In series3 (searchVehicles "Ser" fleet).
Proof.
  apply (longer_query_narrows "Ser" "3 SERIES" fleet series3).
  - reflexivity.
  - apply includes_spec; reflexivity.
  - change (In series3 [series3]); left; reflexivity.
Defined.

End Narrowing.

(** ** Numbers sent as the query *)

Section NumberQuery.

Import Rule.

Lemma string_of_uint_digits (d : Decimal.uint) :
  all_chars is_digit (NilEmpty.string_of_uint d) = true.
Proof. induction d; simpl; auto. Qed.

Ltac digit_step IH :=
  cbn [NilEmpty.string_of_uint decimal_value Pos.of_uint_acc];
  rewrite <- IH; f_equal;
  match goal with
  | |- context [digit_value ?c] =>
      let v := eval vm_compute in (digit_value c) in change (digit_value c) with v
  end;
  lia.

Lemma decimal_value_acc (d : Decimal.uint) (acc : positive) :
  decimal_value (NilEmpty.string_of_uint d) (Z.pos acc) = Z.pos (Pos.of_uint_acc d acc).
Proof.
  revert acc; induction d; intros acc; [reflexivity | digit_step IHd ..].
Qed.

Lemma decimal_value_of_uint (d : Decimal.uint) :
  decimal_value (NilEmpty.string_of_uint d) 0 = Z.of_N (Pos.of_uint d).
Proof.
  induction d; [reflexivity | exact IHd | ..];
    cbn [NilEmpty.string_of_uint decimal_value Pos.of_uint Z.of_N];
    rewrite <- decimal_value_acc; f_equal.
Qed.

Lemma positive_toString (p : positive) :
  is_numeral (Number_toString (Z.pos p)) = true
  /\ decimal_value (Number_toString (Z.pos p)) 0 = Z.pos p.
Proof.
  assert (S : Number_toString (Z.pos p) = NilEmpty.string_of_uint (Pos.to_uint p)).
  { unfold Number_toString; simpl. unfold NilZero.string_of_uint.
    pose proof (DecimalPos.Unsigned.to_uint_nonnil p) as N.
    destruct (Pos.to_uint p); [contradiction | reflexivity ..]. }
  rewrite S. split.
  - unfold is_numeral. rewrite string_of_uint_digits, andb_true_r.
    pose proof (DecimalPos.Unsigned.to_uint_nonnil p) as N.
    destruct (Pos.to_uint p); [contradiction | reflexivity ..].
  - rewrite decimal_value_of_uint, DecimalPos.Unsigned.of_to; reflexivity.
Qed.

(** The string form of an integer reads back as that integer. *)
Lemma Number_toString_numeric (n : Z) : numeric_query (Number_toString n) n.
Proof.
  destruct n as [|p|p].
  - split; reflexivity.
  - destruct (positive_toString p) as [H V].
    apply integer_numeral_is_numeric. unfold parses_as_integer.
    assert (D : exists c s, Number_toString (Z.pos p) = String c s /\ is_digit c = true).
    { unfold is_numeral in H. destruct (Number_toString (Z.pos p)) as [|c s]; [discriminate|].
      simpl in H. apply andb_true_iff in H as [Hc _]. eauto. }
    destruct D as (c & s & E & Hc).
    rewrite E, (strip_sign_digit c s Hc), <- E.
    unfold is_numeral in H. rewrite H, V. reflexivity.
  - destruct (positive_toString p) as [H V].
    change (Number_toString (Z.neg p)) with (String "-" (Number_toString (Z.pos p))).
    pose proof (signed_numeral_numeric (-1) "-"%char (Number_toString (Z.pos p))
                  (or_introl (conj eq_refl eq_refl)) H) as Q.
    rewrite V in Q. exact Q.
Qed.

(** X10: a JSON number sent as the query is searched as that number: for
    a non-zero safe integer [n] (below 2^53 in size, where the string
    form of a number is its plain decimal numeral) the endpoint answers
    200, and its data hold every vehicle of the store, its price a safe
    integer too, whose price or mileage is [n] or whose price is within
    1000 of [n]. *)
Theorem number_query_finds_prices (disk : Disk) (n : Z) (v : Vehicle) :
  isSafeInteger n = true ->
  isSafeInteger (Price v) = true ->
  n <> 0 ->
  In v (fst (getVehiclesData disk)) ->
  Price v = n \/ Mileage v = n \/ Z.abs (Price v - n) <= 1000 ->
  exists d,
    fst (searchHandler disk (JNum n)) = mkResponse 200 (ListBody true (List.length d) d)
    /\ In v d.
Proof.
  intros _ _ Hn Hin Hm.
  pose proof (Number_toString_numeric n) as Q.
  assert (M : In v (searchVehicles (Number_toString n) (fst (getVehiclesData disk)))).
  { apply In_search. split; [exact Hin|].
    unfold EngineMatch. destruct Hm as [H|[H|H]].
    - do 6 right; left; exists n; auto.
    - do 7 right; left; exists n; auto.
    - do 8 right; left; exists n; auto. }
  unfold searchHandler. simpl ToBoolean.
  replace (Z.eqb n 0) with false by (symmetry; apply Z.eqb_neq; exact Hn).
  simpl negb. cbv iota.
  destruct (getVehiclesData disk) as [store log]; simpl in *.
  destruct (searchVehicles (Number_toString n) store) as [|w m]; [destruct M|].
  exists (w :: m); split; [reflexivity | exact M].
Qed.

Lemma number_query_finds_prices_mileage :
  exists d,
    fst (searchHandler (Parses fleet) (JNum 30100))
    = mkResponse 200 (ListBody true (List.length d) d)
    /\ In series3 d.
Proof.
  apply (number_query_finds_prices (Parses fleet) 30100 series3).
  - reflexivity.
  - reflexivity.
  - discriminate.
  - right; left; reflexivity.
  - right; left; reflexivity.
Defined.

End NumberQuery.

(** ** File reads *)

Section Reads.

(** X11: nothing is cached.  Every request reads the backing file
    exactly once, except a search rejected by the validation, which reads
    nothing; and the console gets one error line exactly when the read
    or the parse fails. *)
Theorem one_read_per_request (disk : Disk) (param : string) (searchQuery : JSValue) :
  snd (listVehicles disk) = snd (getVehiclesData disk)
  /\ snd (getVehicleByVrm disk param) = snd (getVehiclesData disk)
  /\ snd (searchHandler disk searchQuery)
     = (if ToBoolean searchQuery then snd (getVehiclesData disk) else [])
  /\ List.length (List.filter is_read (snd (getVehiclesData disk))) = 1%nat
  /\ List.length (List.filter is_console_error (snd (getVehiclesData disk)))
     = (if load_fails disk then 1%nat else 0%nat).
Proof.
  repeat split.
  - unfold listVehicles; destruct (getVehiclesData disk); reflexivity.
  - unfold getVehicleByVrm; destruct (getVehiclesData disk) as [store log]; simpl.
    destruct (findByVrm _ store); reflexivity.
  - unfold searchHandler. destruct (ToBoolean searchQuery); simpl; [|reflexivity].
    destruct (getVehiclesData disk) as [store log]; simpl.
    destruct (toString searchQuery); [|reflexivity].
    destruct (Nat.ltb 0 _); reflexivity.
  - destruct disk; reflexivity.
  - destruct disk; reflexivity.
Qed.

End Reads.

(** ** The home page against the server *)

Section HomePageFlow.

Import Fetch HomePage HomeFlow.

Lemma not_blank_not_empty (term : string) :
  all_chars is_space term = false -> is_empty term = false.
Proof. destruct term; [discriminate | reflexivity]. Qed.

Lemma handleSearch_sends (term : string) (st : State) :
  all_chars is_space term = false ->
  handleSearch term st = (mkState [] true "" "", Some (PostSearch (JStr term))).
Proof.
  intros H. unfold handleSearch.
  rewrite (not_blank_not_empty term H).
  destruct (String.eqb (trim term) "") eqn:E; [|reflexivity].
  apply String.eqb_eq, trim_empty_iff in E. congruence.
Qed.

Lemma handleSearch_blank (term : string) (st : State) :
  all_chars is_space term = true -> snd (handleSearch term st) = None.
Proof.
  intros B. unfold handleSearch. apply trim_empty_iff in B. rewrite B; simpl.
  rewrite orb_true_r; reflexivity.
Qed.

(** X12: for a term of ASCII characters, the home page sends a search
    exactly when the term holds a character that is no white space; the
    request then carries the term as typed, untrimmed, and the previous
    results and messages are cleared. *)
Theorem search_is_sent_unless_blank (term : string) (st : State) :
  is_ascii term = true ->
  match snd (handleSearch term st) with
  | None => all_chars is_space term = true
  | Some request =>
      all_chars is_space term = false
      /\ request = PostSearch (JStr term)
      /\ fst (handleSearch term st) = mkState [] true "" ""
  end.
Proof.
  intros _.
  destruct (all_chars is_space term) eqn:B.
  - rewrite (handleSearch_blank term st B); reflexivity.
  - rewrite (handleSearch_sends term st B); simpl; auto.
Qed.

Lemma search_is_sent_unless_blank_bmw :
  all_chars is_space " bmw " = false
  /\ PostSearch (JStr " bmw ") = PostSearch (JStr " bmw ")
  /\ fst (handleSearch " bmw " (mkState fleet false "" "")) = mkState [] true "" "".
Proof.
  exact (search_is_sent_unless_blank " bmw " (mkState fleet false "" "") eq_refl).
Defined.

(** X13: no search the home page sends is rejected: the server answers
    it with 200 or with 404, never with 400 or 500. *)
Theorem home_search_is_never_rejected (disk : Disk) (term : string) (st : State)
    (q : JSValue) :
  snd (handleSearch term st) = Some (PostSearch q) ->
  status (fst (searchHandler disk q)) = 200%nat
  \/ status (fst (searchHandler disk q)) = 404%nat.
Proof.
  intros H.
  destruct (all_chars is_space term) eqn:B.
  - rewrite (handleSearch_blank term st B) in H; discriminate.
  - rewrite (handleSearch_sends term st B) in H. injection H as <-.
    unfold searchHandler. simpl ToBoolean. rewrite (not_blank_not_empty term B).
    simpl. destruct (getVehiclesData disk) as [store log].
    destruct (Nat.ltb 0 _); simpl; auto.
Qed.

Lemma home_search_is_never_rejected_bmw :
  status (fst (searchHandler (Parses fleet) (JStr " bmw "))) = 200%nat
  \/ status (fst (searchHandler (Parses fleet) (JStr " bmw "))) = 404%nat.
Proof.
  apply (home_search_is_never_rejected (Parses fleet) " bmw " (mkState [] false "" "")).
  reflexivity.
Defined.

(** X14: a search for a term of ASCII characters that are not all white
    space ends, against the server, with the loading flag down, no
    error, and the vehicles the filter returns for the term as typed;
    when there are none, the state holds the server's not-found message.
    The page then shows either the grid or the message, never both and
    never neither. *)
Theorem search_round_trip (disk : Disk) (term : string) (st : State) :
  is_ascii term = true ->
  all_chars is_space term = false ->
  let matching := searchVehicles term (fst (getVehiclesData disk)) in
  let settled :=
    mkState matching false ""
      (match matching with
       | [] => "No vehicles found matching: " ++ quote ++ term ++ quote
       | _ => ""
       end) in
  searchRoundTrip disk term st = Some settled
  /\ showsGrid (render settled) = negb (showsNoResults (render settled))
  /\ showsError (render settled) = false
  /\ showsLoading (render settled) = false.
Proof.
  intros _ B matching settled. subst settled matching.
  unfold searchRoundTrip. rewrite (handleSearch_sends term st B).
  unfold searchHandler. simpl ToBoolean. rewrite (not_blank_not_empty term B).
  simpl negb. cbv iota.
  destruct (getVehiclesData disk) as [store log]; simpl fst.
  change (toString (JStr term)) with (@Ok string term). cbv iota.
  destruct (searchVehicles term store) as [|v m]; simpl; repeat split.
Qed.

Lemma search_round_trip_tesla :
  searchRoundTrip (Parses fleet) "Tesla" (mkState fleet false "" "")
  = Some (mkState [] false "" ("No vehicles found matching: " ++ quote ++ "Tesla" ++ quote)).
Proof.
  apply (search_round_trip (Parses fleet) "Tesla" (mkState fleet false "" "")).
  - reflexivity.
  - reflexivity.
Defined.

(** X15: the view-all button ends, against the server, with the whole
    collection in the state and every message empty; over an empty or
    unreadable store the page then shows nothing at all: no grid, no
    message and no error. *)
Theorem view_all_round_trip (disk : Disk) (st : State) :
  let store := fst (getVehiclesData disk) in
  viewAllRoundTrip disk st = Some (mkState store false "" "")
  /\ render (mkState store false "" "")
     = mkView false false false (negb (Nat.eqb (List.length store) 0)).
Proof.
  unfold viewAllRoundTrip, listVehicles.
  destruct (getVehiclesData disk) as [store log]; simpl.
  split; [reflexivity|].
  destruct store; reflexivity.
Qed.

End HomePageFlow.

(** ** The detail page against the server *)

Section DetailPageFlow.

Import Fetch DetailPage.



(** X17: the detail page never clears its error: once an error is in the
    state, whatever a later fetch brings, a found vehicle included, the
    page renders the error view. *)
Theorem detail_error_is_sticky (outcome : Outcome) (vrm : string) (st st' : State) :
  error st <> "" ->
  settleDetails outcome st = Some st' ->
  exists message, render vrm st' = ErrorView message /\ message <> ""
    /\ (match outcome with
        | Responded data => data_success data = true -> message = error st
        | NetworkError => True
        end).
Proof.
  intros He H.
  assert (R : forall s, loading s = false -> error s <> "" ->
              render vrm s = ErrorView (error s)).
  { intros s Hl Hs. unfold render. rewrite Hl.
    destruct (error s); [contradiction | reflexivity]. }
  destruct outcome as [|data]; simpl in H.
  - injection H as <-. eexists; split; [apply R; [reflexivity | discriminate]|].
    split; [discriminate | exact I].
  - destruct (data_success data) eqn:S.
    + destruct (data_data data); try discriminate; injection H as <-;
        (eexists; split; [apply R; [reflexivity | exact He] | split; auto]).
    + injection H as <-. eexists; split.
      * apply R; [reflexivity|]. simpl.
        unfold or_default. destruct (data_message data) as [[|c m]|]; discriminate.
      * split; [|discriminate].
        simpl. unfold or_default. destruct (data_message data) as [[|c m]|]; discriminate.
Qed.

Lemma detail_error_is_sticky_golf :
  exists message,
    render "AB12CDE" (mkState (Some golf) false "No vehicle found with VRM: ZZ99ZZZ")
    = ErrorView message /\ message <> "".
Proof.
  destruct (detail_error_is_sticky (Responded (ItemBody true golf)) "AB12CDE"
              (mkState None false "No vehicle found with VRM: ZZ99ZZZ")
              (mkState (Some golf) false "No vehicle found with VRM: ZZ99ZZZ"))
    as (m & R & N & _).
  - discriminate.
  - reflexivity.
  - exists m; split; assumption.
Defined.

End DetailPageFlow.

(** ** The envelope *)

Section Envelope.

Import Fetch.

(** X18: on every answer of the three endpoints the [success] flag, the
    only field the pages branch on, agrees with the status: it is true
    exactly on a 200, and a 200 always carries a [data] field. *)
Theorem success_flag_agrees_with_status (disk : Disk) (param : string) (searchQuery : JSValue) :
  coherent (fst (listVehicles disk))
  /\ coherent (fst (getVehicleByVrm disk param))
  /\ coherent (fst (searchHandler disk searchQuery)).
Proof.
  unfold coherent. split; [|split].
  - unfold listVehicles. destruct (getVehiclesData disk); simpl.
    repeat split; discriminate.
  - unfold getVehicleByVrm. destruct (getVehiclesData disk) as [store log].
    destruct (findByVrm _ store); simpl; repeat split; discriminate.
  - unfold searchHandler. destruct (ToBoolean searchQuery); simpl.
    + destruct (getVehiclesData disk) as [store log].
      destruct (toString searchQuery); [|simpl; repeat split; discriminate].
      destruct (Nat.ltb 0 _); simpl; repeat split; discriminate.
    + repeat split; discriminate.
Qed.

End Envelope.
